(** * zfs_fuse_snapshot: a shallow embedding of [zfs_fuse_snapshot.py]

    The program mounts a ZFS pool as a read-only FUSE tree in which every
    snapshot is a file whose content is the output of [zfs send].  This file
    embeds the functions of the script as Rocq functions and states the
    properties of the specification about them.

    Conventions of the embedding.
    - A Python [str] is a Rocq [string]; its characters are read as the code
      points below 256, so that [<] on [str] is [String.ltb].
    - A Python [int] is a [Z]; [bytes] is a [list byte].
    - A call that can raise returns a [Res]: [Return v] or [Raise e].
    - The outside world (the [zfs] binary run through [subprocess], the
      dataset catalogue of [simplezfs]) is a record of oracles, [World].
    - A method that mutates [self] takes the object and returns the new one
      together with its result.
    - The [print] calls of the script write a log on the standard output and
      have no influence on any value; they are left out. *)

From Stdlib Require Import ZArith String Ascii List Bool Sorted.
From Stdlib.Strings Require Import Byte.
From stdpp Require Import base gmap list strings.
Import ListNotations.

Local Open Scope string_scope.
Local Open Scope Z_scope.

(* ===================================================================== *)
(** ** Python values, exceptions and results                              *)
(* ===================================================================== *)

(** The exceptions the script can meet. *)
Inductive exn : Type :=
| RuntimeError (msg : string)
| ValueError
| TypeError
| IndexError
| KeyError (key : Z)
| OSError
| OverflowError
| StopIteration.

(** The dynamically typed values that flow through the script where one
    variable holds values of several types: [from_snap] is [None], a [str] or
    (see [find_closest_snapshot]) an exception object; the [statfs] table
    holds ints and strs; [VAttr] is an attribute looked up on an object. *)
Inductive value : Type :=
| VNone
| VInt (z : Z)
| VStr (s : string)
| VExn (e : exn)
| VAttr (name : string).

(** Truth value of an object in [if x:]. *)
Definition truthy (v : value) : bool :=
  match v with
  | VNone => false
  | VInt z => negb (z =? 0)
  | VStr s => negb (String.eqb s "")
  | VExn _ => true
  | VAttr _ => true
  end.

Inductive Res (A : Type) : Type :=
| Return (a : A)
| Raise (e : exn).
Arguments Return {A} a.
Arguments Raise {A} e.

Definition bind {A B : Type} (r : Res A) (k : A -> Res B) : Res B :=
  match r with
  | Return a => k a
  | Raise e => Raise e
  end.

Notation "'let*' x := r 'in' k" := (bind r (fun x => k))
  (at level 10, x name, r at level 100, k at level 200).

(* ===================================================================== *)
(** ** The string methods the script uses                                 *)
(* ===================================================================== *)

(** [s.split(sep)] for a separator of one character: always at least one
    field. *)
Fixpoint py_split (sep : ascii) (s : string) : list string :=
  match s with
  | EmptyString => [EmptyString]
  | String c s' =>
      if Ascii.eqb c sep then EmptyString :: py_split sep s'
      else match py_split sep s' with
           | [] => [String c EmptyString]
           | f :: fs => String c f :: fs
           end
  end.

(** [str.isspace] on one character (code points below 256). *)
Definition isspace (c : ascii) : bool :=
  let n := N_of_ascii c in
  (((9 <=? n) && (n <=? 13)) || ((28 <=? n) && (n <=? 32))
   || (n =? 133) || (n =? 160))%N.

Fixpoint lstrip_by (p : ascii -> bool) (s : string) : string :=
  match s with
  | EmptyString => EmptyString
  | String c s' => if p c then lstrip_by p s' else s
  end.

Fixpoint rstrip_by (p : ascii -> bool) (s : string) : string :=
  match s with
  | EmptyString => EmptyString
  | String c s' =>
      match rstrip_by p s' with
      | EmptyString => if p c then EmptyString else String c EmptyString
      | r => String c r
      end
  end.

Fixpoint char_in (c : ascii) (chars : string) : bool :=
  match chars with
  | EmptyString => false
  | String d chars' => Ascii.eqb c d || char_in c chars'
  end.

(** [s.strip()]: white space removed at both ends. *)
Definition py_strip (s : string) : string :=
  rstrip_by isspace (lstrip_by isspace s).

(** [s.lstrip(chars)] and [s.rstrip(chars)]: [chars] is a SET of
    characters; every leading (trailing) character that belongs to it is
    removed. *)
Definition py_lstrip (chars s : string) : string :=
  lstrip_by (fun c => char_in c chars) s.

Definition py_rstrip (chars s : string) : string :=
  rstrip_by (fun c => char_in c chars) s.

(** [s.startswith(p)]. *)
Definition startswith (s p : string) : bool := String.prefix p s.

(** [a < b] on [str]: lexicographic on code points. *)
Definition str_lt (a b : string) : bool := String.ltb a b.

(* ===================================================================== *)
(** ** The outside world                                                  *)
(* ===================================================================== *)

(** What [subprocess.run(..., encoding='utf-8')] returns. *)
Record CompletedProcess : Type := {
  returncode : Z;
  proc_stdout : string;
  proc_stderr : string
}.

(** [simplezfs]'s dataset tuple, with the two fields [readdir] reads. *)
Record Dataset : Type := {
  full_path : string;
  parent : option string
}.

Record World : Type := {
  (** [subprocess.run(argv)] on an argv of strs *)
  run : list string -> Res CompletedProcess;
  (** [Popen(argv, stdout=PIPE)]: the bytes the child will write *)
  popen : list string -> Res (list Byte.byte);
  (** [zfs.list_datasets(parent=...)] *)
  list_datasets : string -> Res (list Dataset)
}.

(** An argv is built from Python values; [subprocess] refuses one that
    holds anything but strs with a [TypeError]. *)
Fixpoint argv_strs (args : list value) : option (list string) :=
  match args with
  | [] => Some []
  | VStr s :: args' => option_map (cons s) (argv_strs args')
  | _ :: _ => None
  end.

Definition subprocess_run (w : World) (args : list value) : Res CompletedProcess :=
  match argv_strs args with
  | Some argv => run w argv
  | None => Raise TypeError
  end.

Definition Popen_spawn (w : World) (args : list value) : Res (list Byte.byte) :=
  match argv_strs args with
  | Some argv => popen w argv
  | None => Raise TypeError
  end.

(* ===================================================================== *)
(** ** [zfs_call]                                                         *)
(* ===================================================================== *)

(** Lines 17-22.  The generator runs the command on its first [next] and
    then yields the lines of the stripped output, at least one (the empty
    line for an empty output); the whole run is the list of lines. *)
Definition zfs_call (w : World) (args : list value) : Res (list string) :=
  let* proc := subprocess_run w args in
  if negb (returncode proc =? 0) || (0 <? Z.of_nat (String.length (proc_stderr proc)))
  then Raise (RuntimeError (proc_stderr proc))
  else Return (py_split "010"%char (py_strip (proc_stdout proc))).

(* ===================================================================== *)
(** ** [find_closest_snapshot]                                            *)
(* ===================================================================== *)

(** The three accumulators of the first loop (lines 28-30). *)
Record scan : Type := {
  ctimes : list string;
  snap_names : list string;
  snap_ctime : option string
}.

Definition scan0 : scan :=
  {| ctimes := []; snap_names := []; snap_ctime := None |}.

(** One turn of [for line in zfs_call(args)] (lines 32-38); the unpacking
    [name, ctime = line.split('\t')] needs exactly two fields. *)
Definition scan_line (dataset snapshot : string) (st : scan) (line : string)
  : Res scan :=
  match py_split "009"%char line with
  | [name; ctime] =>
      if startswith name dataset then
        if String.eqb name snapshot then
          Return {| ctimes := ctimes st; snap_names := snap_names st;
                    snap_ctime := Some ctime |}
        else
          Return {| ctimes := ctimes st ++ [ctime];
                    snap_names := snap_names st ++ [name];
                    snap_ctime := snap_ctime st |}
      else Return st
  | _ => Raise ValueError
  end.

Fixpoint scan_lines (dataset snapshot : string) (st : scan) (lines : list string)
  : Res scan :=
  match lines with
  | [] => Return st
  | line :: lines' =>
      let* st' := scan_line dataset snapshot st line in
      scan_lines dataset snapshot st' lines'
  end.

(** [not closest_ctime]: true on [None] and on the empty str. *)
Definition not_ctime (c : option string) : bool :=
  match c with
  | None => true
  | Some s => String.eqb s ""
  end.

Definition ctime_gt (ctime : string) (closest : option string) : bool :=
  match closest with
  | None => false
  | Some c => str_lt c ctime
  end.

(** One turn of [for snap, ctime in zip(snap_names, ctimes)] (lines 45-49);
    the state is [(closest_snap, closest_ctime)].  The creation times are
    the strs of the listing and are compared as strs. *)
Definition closest_step (snap_ctime : string)
  (acc : option string * option string) (sc : string * string)
  : option string * option string :=
  let '(snap, ctime) := sc in
  if str_lt ctime snap_ctime then
    if not_ctime (snd acc) || ctime_gt ctime (snd acc)
    then (Some snap, Some ctime)
    else acc
  else acc.

Definition closest_loop (snap_ctime : string) (cands : list (string * string))
  : option string * option string :=
  fold_left (closest_step snap_ctime) cands (None, None).

Definition zfs_list_snapshots : list value :=
  [VStr "zfs"; VStr "list"; VStr "-H"; VStr "-p"; VStr "-o";
   VStr "name,creation"; VStr "-t"; VStr "snapshot"].

Definition not_found_msg (snapshot : string) : string :=
  "snapshot " +:+ snapshot +:+ " not found".

(** Lines 24-52.  Line 42 is [return RuntimeError(...)]: the value of the
    call is then the exception object. *)
Definition find_closest_snapshot (w : World) (snapshot : string) : Res value :=
  let dataset := hd EmptyString (py_split "@"%char snapshot) in
  let* lines := zfs_call w zfs_list_snapshots in
  let* st := scan_lines dataset snapshot scan0 lines in
  match snap_ctime st with
  | None => Return (VExn (RuntimeError (not_found_msg snapshot)))
  | Some sct =>
      match fst (closest_loop sct (combine (snap_names st) (ctimes st))) with
      | None => Return VNone
      | Some snap => Return (VStr snap)
      end
  end.

(* ===================================================================== *)
(** ** [get_size]                                                         *)
(* ===================================================================== *)

(** The built-in conversion [int(s)] is taken as it is: a partial function
    into the integers, [None] where it raises [ValueError]. *)
Section Builtins.

Variable int_of_str : string -> option Z.

(** The argv of lines 57-60.  [from_snap] is any object: what counts is its
    truth value. *)
Definition zfs_send_dry (from_snap : value) (zpath : string) : list value :=
  if truthy from_snap then
    [VStr "zfs"; VStr "send"; VStr "-n"; VStr "-v"; VStr "-P"; VStr "-i";
     from_snap; VStr zpath]
  else
    [VStr "zfs"; VStr "send"; VStr "-n"; VStr "-v"; VStr "-P"; VStr zpath].

(** Lines 55-62: [int(lines[1].split('\t')[1])]. *)
Definition get_size (w : World) (zpath : string) : Res Z :=
  let* from_snap := find_closest_snapshot w zpath in
  let* lines := zfs_call w (zfs_send_dry from_snap zpath) in
  match nth_error lines 1 with
  | None => Raise IndexError
  | Some line =>
      match nth_error (py_split "009"%char line) 1 with
      | None => Raise IndexError
      | Some field =>
          match int_of_str field with
          | None => Raise ValueError
          | Some n => Return n
          end
      end
  end.

End Builtins.

(** The largest [Py_ssize_t] of a 64-bit CPython ([sys.maxsize],
    [2**63 - 1]). *)
Definition PY_SSIZE_T_MAX : Z := 9223372036854775807.

(* ===================================================================== *)
(** ** [SendBuffer]                                                       *)
(* ===================================================================== *)

Module SendBuffer.

(** The child process: what is left in its output pipe, and whether it was
    sent the termination signal. *)
Record Popen : Type := {
  stdout : list Byte.byte;
  terminated : bool
}.

Record t : Type := {
  pointer : Z;
  from_snap : value;
  send_proc : Popen
}.

(** [stdout.read(n)] on the buffered, blocking pipe of [Popen].  The
    argument is first converted to a [Py_ssize_t]: an [n] outside
    [-2**63 .. 2**63 - 1] raises [OverflowError] and nothing is read.  Then
    [n < -1] raises [ValueError], [n = -1] reads everything, and any other
    [n] gives [n] bytes, fewer only when the stream ends first.  The pipe is
    the finite sequence of the bytes the child has still to deliver; the
    result is the data and what is left.  The machine is taken to have room
    for the buffer of a read it accepts. *)
Definition pipe_read (n : Z) (pipe : list Byte.byte)
  : Res (list Byte.byte * list Byte.byte) :=
  if (n <? - PY_SSIZE_T_MAX - 1) || (PY_SSIZE_T_MAX <? n) then Raise OverflowError
  else if n <? -1 then Raise ValueError
  else if n =? -1 then Return (pipe, [])
  else Return (take (Z.to_nat n) pipe, drop (Z.to_nat n) pipe).

Definition zfs_send (from_snap : value) (zpath : string) : list value :=
  if truthy from_snap then
    [VStr "zfs"; VStr "send"; VStr "-v"; VStr "-P"; VStr "-i";
     from_snap; VStr zpath]
  else
    [VStr "zfs"; VStr "send"; VStr "-v"; VStr "-P"; VStr zpath].

(** The object at the end of [__init__]: the pointer at 0 and a running
    child whose whole output [out] is still to be read. *)
Definition fresh (from_snap : value) (out : list Byte.byte) : t :=
  {| pointer := 0; from_snap := from_snap;
     send_proc := {| stdout := out; terminated := false |} |}.

(** [SendBuffer(zpath)] (lines 66-74). *)
Definition init (w : World) (zpath : string) : Res t :=
  let* from_snap := find_closest_snapshot w zpath in
  let* out := Popen_spawn w (zfs_send from_snap zpath) in
  Return (fresh from_snap out).

Definition with_pipe (self : t) (pointer' : Z) (rest : list Byte.byte) : t :=
  {| pointer := pointer';
     from_snap := from_snap self;
     send_proc := {| stdout := rest;
                     terminated := terminated (send_proc self) |} |}.

(** The [if offset > self.pointer:] block of [read] (lines 80-83): the
    bytes read are dropped and the pointer is set to [offset]. *)
Definition seek (self : t) (offset : Z) : t * Res unit :=
  if pointer self <? offset then
    match pipe_read (offset - pointer self) (stdout (send_proc self)) with
    | Raise e => (self, Raise e)
    | Return (_, rest) => (with_pipe self offset rest, Return tt)
    end
  else (self, Return tt).

(** Lines 76-87. *)
Definition read (self : t) (length offset : Z) : t * Res (list Byte.byte) :=
  match seek self offset with
  | (self1, Raise e) => (self1, Raise e)
  | (self1, Return _) =>
      match pipe_read length (stdout (send_proc self1)) with
      | Raise e => (self1, Raise e)
      | Return (data, rest) =>
          (with_pipe self1 (pointer self1 + Z.of_nat (List.length data)) rest,
           Return data)
      end
  end.

(** Lines 89-91: [self.send_proc.terminate()]. *)
Definition close (self : t) : t :=
  {| pointer := pointer self;
     from_snap := from_snap self;
     send_proc := {| stdout := stdout (send_proc self); terminated := true |} |}.

End SendBuffer.

(* ===================================================================== *)
(** ** [FuseSnapshot]                                                     *)
(* ===================================================================== *)

(** The mode bits of [stat]. *)
Definition S_IFMT : Z := 0xF000.   (* 0o170000 *)
Definition S_IFREG : Z := 0x8000.  (* 0o100000 *)
Definition S_IFDIR : Z := 0x4000.  (* 0o040000 *)
Definition S_IRUSR : Z := 0x100.   (* 0o400 *)
Definition S_IXUSR : Z := 0x40.    (* 0o100 *)
Definition S_ISREG (mode : Z) : bool := Z.land mode S_IFMT =? S_IFREG.
Definition S_ISDIR (mode : Z) : bool := Z.land mode S_IFMT =? S_IFDIR.

(** The dict [getattr] returns. *)
Record Stat (float : Type) : Type := {
  st_atime : float;
  st_ctime : float;
  st_gid : Z;
  st_mode : Z;
  st_mtime : float;
  st_nlink : Z;
  st_size : Z;
  st_uid : Z
}.
Arguments st_atime {float} _.
Arguments st_ctime {float} _.
Arguments st_gid {float} _.
Arguments st_mode {float} _.
Arguments st_mtime {float} _.
Arguments st_nlink {float} _.
Arguments st_size {float} _.
Arguments st_uid {float} _.

(** A Python dict with str keys, in insertion order. *)
Definition dict : Type := list (string * value).

(** The attribute names of a [dict] object ([dir({})], CPython 3.11). *)
Definition dict_attrs : list string :=
  ["__class__"; "__class_getitem__"; "__contains__"; "__delattr__";
   "__delitem__"; "__dir__"; "__doc__"; "__eq__"; "__format__"; "__ge__";
   "__getattribute__"; "__getitem__"; "__getstate__"; "__gt__"; "__hash__";
   "__init__"; "__init_subclass__"; "__ior__"; "__iter__"; "__le__";
   "__len__"; "__lt__"; "__ne__"; "__new__"; "__or__"; "__reduce__";
   "__reduce_ex__"; "__repr__"; "__reversed__"; "__ror__"; "__setattr__";
   "__setitem__"; "__sizeof__"; "__str__"; "__subclasshook__"; "clear";
   "copy"; "fromkeys"; "get"; "items"; "keys"; "pop"; "popitem";
   "setdefault"; "update"; "values"].

(** The built-in [getattr(obj, name, default)] on a dict object: it looks
    [name] up among the ATTRIBUTES of the object, not among its keys. *)
Definition builtin_getattr (obj : dict) (name : string) (default : value)
  : value :=
  if existsb (String.eqb name) dict_attrs then VAttr name else default.

Definition dict_get (d : dict) (key : string) : option value :=
  snd <$> List.find (fun kv => String.eqb (fst kv) key) d.

Module FuseSnapshot.

Record t : Type := {
  zpool : string;
  _open_buffers : gmap Z SendBuffer.t;
  _max_buffer_id : Z
}.

(** [FuseSnapshot(zpool)] (lines 94-98); the catalogue [self.zfs] is in the
    [World]. *)
Definition init (zpool : string) : t :=
  {| zpool := zpool; _open_buffers := ∅; _max_buffer_id := 0 |}.

(** Lines 100-102: every trailing [/] of the path is removed. *)
Definition _path2zpath (self : t) (path : string) : string :=
  zpool self +:+ py_rstrip "/" path.

(** [float(s)] is taken as it is, like [int(s)]: a partial function into
    the type of floats, which is left abstract. *)
Section Builtins.

Variable int_of_str : string -> option Z.
Variable float : Type.
Variable float_of_str : string -> option float.

Definition zfs_list_node (zpath : string) : list value :=
  [VStr "zfs"; VStr "list"; VStr "-H"; VStr "-p"; VStr "-o";
   VStr "name,type,creation"; VStr zpath].

(** Lines 110-133.  [next] takes the first line of the listing. *)
Definition getattr (w : World) (self : t) (path : string) : Res (Stat float) :=
  let zpath := _path2zpath self path in
  let* lines := zfs_call w (zfs_list_node zpath) in
  match lines with
  | [] => Raise StopIteration
  | line :: _ =>
      match py_split "009"%char line with
      | [name; ztype; ctime] =>
          match float_of_str ctime with
          | None => Raise ValueError
          | Some ctime =>
              let inode_type :=
                if String.eqb ztype "snapshot" then S_IFREG else S_IFDIR in
              let* st_size :=
                (if String.eqb ztype "snapshot"
                 then get_size int_of_str w zpath else Return 0) in
              let st_size := st_size * 2 in
              Return {| st_atime := ctime;
                        st_ctime := ctime;
                        st_gid := 0;
                        st_mode := Z.lor (Z.lor inode_type S_IRUSR) S_IXUSR;
                        st_mtime := ctime;
                        st_nlink := 1;
                        st_size := st_size;
                        st_uid := 0 |}
          end
      | _ => Raise ValueError
      end
  end.

End Builtins.

(** Lines 135-141.  [readdir] is a generator: the entries it yields, and
    the exception that ends it when the catalogue fails. *)
Definition readdir (w : World) (self : t) (path : string) (fh : Z)
  : list string * option exn :=
  let zpath := _path2zpath self path in
  match list_datasets w zpath with
  | Raise e => (["."; ".."], Some e)
  | Return ds =>
      (List.app ["."; ".."]
        (map (fun d => py_lstrip (zpool self +:+ "/") (full_path d))
           (List.filter
              (fun d => match parent d with
                        | Some p => String.eqb p zpath
                        | None => false
                        end) ds)),
       None)
  end.

(** Lines 143-155.  The name [getattr] in the body is the built-in: the
    method of the class is not in scope there. *)
Definition statfs (self : t) (path : string) : dict :=
  let stv : dict :=
    [("f_bsize", VInt 4096);
     ("f_blocks", VInt (2 ^ 16));
     ("f_bfree", VInt 0);
     ("f_ffree", VInt 0);
     ("f_bavail", VInt 0);
     ("f_namelen", VInt 1024);
     ("f_flag", VStr "")] in
  map (fun key => (key, builtin_getattr stv key (VInt 0)))
      ["f_bavail"; "f_bfree"; "f_blocks"; "f_bsize"; "f_favail"; "f_ffree";
       "f_files"; "f_flag"; "f_frsize"; "f_namemax"].

(** Lines 161-167.  The counter is moved before [SendBuffer(zpath)] is
    evaluated, and stays moved when that raises. *)
Definition open (w : World) (self : t) (path : string) (flags : Z)
  : t * Res Z :=
  let zpath := _path2zpath self path in
  let buffer_id := _max_buffer_id self + 1 in
  let self1 := {| zpool := zpool self;
                  _open_buffers := _open_buffers self;
                  _max_buffer_id := buffer_id |} in
  match SendBuffer.init w zpath with
  | Raise e => (self1, Raise e)
  | Return sb =>
      ({| zpool := zpool self1;
          _open_buffers := <[buffer_id := sb]> (_open_buffers self1);
          _max_buffer_id := _max_buffer_id self1 |},
       Return buffer_id)
  end.

(** Lines 169-171.  The session is an object held by the table: what
    [SendBuffer.read] does to it is seen through the table afterwards. *)
Definition read (self : t) (path : string) (length offset : Z) (fh : Z)
  : t * Res (list Byte.byte) :=
  match _open_buffers self !! fh with
  | None => (self, Raise (KeyError fh))
  | Some sb =>
      let '(sb', r) := SendBuffer.read sb length offset in
      ({| zpool := zpool self;
          _open_buffers := <[fh := sb']> (_open_buffers self);
          _max_buffer_id := _max_buffer_id self |}, r)
  end.

(** Lines 173-175: the lookup raises [KeyError] on a key that is not
    there, before anything is closed or deleted. *)
Definition release (self : t) (path : string) (fh : Z) : t * Res unit :=
  match _open_buffers self !! fh with
  | None => (self, Raise (KeyError fh))
  | Some sb =>
      let _closed := SendBuffer.close sb in
      ({| zpool := zpool self;
          _open_buffers := delete fh (_open_buffers self);
          _max_buffer_id := _max_buffer_id self |}, Return tt)
  end.

End FuseSnapshot.

(* ===================================================================== *)
(** ** Runs: sequences of calls on one session and on one mount           *)
(* ===================================================================== *)

(** The read pointer after each call of a sequence of
    [read(length, offset)] calls on one session. *)
Fixpoint pointers_after (self : SendBuffer.t) (calls : list (Z * Z)) : list Z :=
  match calls with
  | [] => []
  | (length, offset) :: calls' =>
      let self' := fst (SendBuffer.read self length offset) in
      SendBuffer.pointer self' :: pointers_after self' calls'
  end.


(** The calls of the VFS bridge that reach the table of open sessions. *)
Inductive call : Type :=
| Open (path : string) (flags : Z)
| Read (path : string) (length offset fh : Z)
| Release (path : string) (fh : Z).

Inductive outcome : Type :=
| Handle (r : Res Z)
| Data (r : Res (list Byte.byte))
| Done (r : Res unit).

(** One call, in the world as it is when the call is made. *)
Definition step (w : World) (self : FuseSnapshot.t) (c : call)
  : FuseSnapshot.t * outcome :=
  match c with
  | Open path flags =>
      let '(self', r) := FuseSnapshot.open w self path flags in (self', Handle r)
  | Read path length offset fh =>
      let '(self', r) := FuseSnapshot.read self path length offset fh in
      (self', Data r)
  | Release path fh =>
      let '(self', r) := FuseSnapshot.release self path fh in (self', Done r)
  end.

Record event : Type := {
  ev_world : World;
  ev_call : call;
  ev_before : FuseSnapshot.t;
  ev_after : FuseSnapshot.t;
  ev_result : outcome
}.

(** The history of a mount: each call with the state before and after. *)
Fixpoint history (self : FuseSnapshot.t) (calls : list (World * call))
  : list event :=
  match calls with
  | [] => []
  | (w, c) :: calls' =>
      let '(self', r) := step w self c in
      {| ev_world := w; ev_call := c; ev_before := self;
         ev_after := self'; ev_result := r |} :: history self' calls'
  end.

(** The handles handed out, oldest first. *)
Fixpoint handles (h : list event) : list Z :=
  match h with
  | [] => []
  | ev :: h' =>
      match ev_result ev with
      | Handle (Return fh) => fh :: handles h'
      | _ => handles h'
      end
  end.

(** What an [open] does, by the outcome of [SendBuffer(zpath)] in the world
    of the call.  When the session is built, the call returns the counter
    plus one, a key that was free, stores the session under it and changes
    no other entry.  When the construction raises, the call raises the same
    exception and the table is as before.  The counter is the new number in
    both cases. *)
Definition open_inserts (ev : event) : Prop :=
  match ev_call ev with
  | Open path _ =>
      let fh := FuseSnapshot._max_buffer_id (ev_before ev) + 1 in
      FuseSnapshot._max_buffer_id (ev_after ev) = fh /\
      match SendBuffer.init (ev_world ev)
              (FuseSnapshot._path2zpath (ev_before ev) path) with
      | Return sb =>
          ev_result ev = Handle (Return fh)
          /\ FuseSnapshot._open_buffers (ev_before ev) !! fh = None
          /\ FuseSnapshot._open_buffers (ev_after ev)
             = <[fh := sb]> (FuseSnapshot._open_buffers (ev_before ev))
      | Raise e =>
          ev_result ev = Handle (Raise e)
          /\ FuseSnapshot._open_buffers (ev_after ev)
             = FuseSnapshot._open_buffers (ev_before ev)
      end
  | _ => True
  end.

(** What a [release] does: it removes the entry of a handle that is in the
    table, and raises [KeyError] and changes nothing for one that is
    not. *)
Definition release_removes (ev : event) : Prop :=
  match ev_call ev with
  | Release _ fh =>
      match FuseSnapshot._open_buffers (ev_before ev) !! fh with
      | Some _ =>
          ev_result ev = Done (Return tt)
          /\ FuseSnapshot._open_buffers (ev_after ev)
             = delete fh (FuseSnapshot._open_buffers (ev_before ev))
      | None =>
          ev_result ev = Done (Raise (KeyError fh))
          /\ FuseSnapshot._open_buffers (ev_after ev)
             = FuseSnapshot._open_buffers (ev_before ev)
      end
  | _ => True
  end.

(** A call other than [release] leaves every key of the table in place. *)
Definition keeps_entries (ev : event) : Prop :=
  match ev_call ev with
  | Release _ _ => True
  | _ =>
      forall fh, is_Some (FuseSnapshot._open_buffers (ev_before ev) !! fh) ->
                 is_Some (FuseSnapshot._open_buffers (ev_after ev) !! fh)
  end.

(** Every key of the table was handed out by the counter. *)
Definition table_below (self : FuseSnapshot.t) : Prop :=
  forall fh, is_Some (FuseSnapshot._open_buffers self !! fh) ->
             fh <= FuseSnapshot._max_buffer_id self.

(* ===================================================================== *)
(** ** Reference readings and sample worlds                               *)
(* ===================================================================== *)

(** The dataset a snapshot name belongs to: what stands before the [@]. *)
Definition dataset_of (name : string) : string :=
  hd EmptyString (py_split "@"%char name).

(** The listing as records: a line [name TAB ctime] is the record
    [(name, ctime)]. *)
Definition parses (line : string) (rec : string * string) : Prop :=
  py_split "009"%char line = [fst rec; snd rec].

(** The records the first loop of [find_closest_snapshot] keeps as
    candidates: the name starts with the dataset and is not the target. *)
Definition candidate (dataset snapshot : string) (rec : string * string) : bool :=
  startswith (fst rec) dataset && negb (String.eqb (fst rec) snapshot).

(** The creation time the first loop ends with for the target: that of its
    last record. *)
Definition last_ctime (dataset snapshot : string) (recs : list (string * string))
  (start : option string) : option string :=
  fold_left
    (fun acc rec =>
       if startswith (fst rec) dataset && String.eqb (fst rec) snapshot
       then Some (snd rec) else acc)
    recs start.

(** What the second loop of [find_closest_snapshot] holds after the
    candidates [cands] when the target was created at [sct]: nothing when no
    candidate is earlier than [sct], and otherwise a candidate earlier than
    [sct] that no earlier candidate comes after. *)
Definition chosen (sct : string) (cands : list (string * string))
  (acc : option string * option string) : Prop :=
  match acc with
  | (None, None) => forall n c, In (n, c) cands -> str_lt c sct = false
  | (Some b, Some cb) =>
      In (b, cb) cands /\ str_lt cb sct = true /\
      forall n c, In (n, c) cands -> str_lt c sct = true -> str_lt cb c = false
  | _ => False
  end.

(** Removal of a prefix, as opposed to [py_lstrip]: the rest of [s] when
    [s] starts with [p]. *)
Fixpoint strip_prefix (p s : string) : option string :=
  match p, s with
  | EmptyString, _ => Some s
  | String a p', String b s' =>
      if Ascii.eqb a b then strip_prefix p' s' else None
  | String _ _, EmptyString => None
  end.

(** A reading of decimal digits, used to fill [int_of_str] and
    [float_of_str] in the examples. *)
Fixpoint decimal_acc (acc : Z) (s : string) : option Z :=
  match s with
  | EmptyString => Some acc
  | String c s' =>
      let n := Z.of_N (N_of_ascii c) in
      if (48 <=? n) && (n <=? 57) then decimal_acc (10 * acc + (n - 48)) s'
      else None
  end.

Definition decimal (s : string) : option Z :=
  match s with
  | EmptyString => None
  | _ => decimal_acc 0 s
  end.

Definition ok_stdout (out : string) : Res CompletedProcess :=
  Return {| returncode := 0; proc_stdout := out; proc_stderr := "" |}.

Definition failed (err : string) : Res CompletedProcess :=
  Return {| returncode := 1; proc_stdout := ""; proc_stderr := err |}.

Definition TAB : string := String "009"%char EmptyString.
Definition NL : string := String "010"%char EmptyString.

Definition argv_eqb (a b : list string) : bool :=
  bool_decide (a = b).

(** The pool of the scenarios of the specification: dataset [tank/a] with
    the snapshots [s1] (created at 100) and [s2] (created at 200). *)
Definition tank_snapshots : string :=
  "tank/a@s1" +:+ TAB +:+ "100" +:+ NL +:+
  "tank/a@s2" +:+ TAB +:+ "200" +:+ NL.

Definition tank_run (snapshots : string) (argv : list string)
  : Res CompletedProcess :=
  if argv_eqb argv ["zfs"; "list"; "-H"; "-p"; "-o"; "name,creation"; "-t"; "snapshot"]
  then ok_stdout snapshots
  else if argv_eqb argv ["zfs"; "list"; "-H"; "-p"; "-o"; "name,type,creation"; "tank/a@s2"]
  then ok_stdout ("tank/a@s2" +:+ TAB +:+ "snapshot" +:+ TAB +:+ "200" +:+ NL)
  else if argv_eqb argv ["zfs"; "list"; "-H"; "-p"; "-o"; "name,type,creation"; "tank/a"]
  then ok_stdout ("tank/a" +:+ TAB +:+ "filesystem" +:+ TAB +:+ "50" +:+ NL)
  else if argv_eqb argv ["zfs"; "send"; "-n"; "-v"; "-P"; "-i"; "tank/a@s1"; "tank/a@s2"]
  then ok_stdout ("incremental" +:+ TAB +:+ "tank/a@s1" +:+ TAB +:+ "tank/a@s2"
                  +:+ TAB +:+ "1234" +:+ NL +:+ "size" +:+ TAB +:+ "1234" +:+ NL)
  else failed "cannot open: dataset does not exist".

Definition tank_world (snapshots : string) : World :=
  {| run := tank_run snapshots;
     popen := fun _ => Return [x01; x02; x03]%byte;
     list_datasets := fun p =>
       if String.eqb p "tank"
       then Return [{| full_path := "tank/a"; parent := Some "tank" |}]
       else Return [] |}.

(** The same pool with one more dataset, [tank/ab], whose name extends
    [tank/a], and its snapshot [x] created at 150. *)
Definition tank_ab_snapshots : string :=
  "tank/a@s1" +:+ TAB +:+ "100" +:+ NL +:+
  "tank/a@s2" +:+ TAB +:+ "200" +:+ NL +:+
  "tank/ab@x" +:+ TAB +:+ "150" +:+ NL.

(** The sample pool, a new mount of it, and the mount after one
    [open('/a@s2')]. *)
Definition sample_world : World := tank_world tank_snapshots.
Definition mount0 : FuseSnapshot.t := FuseSnapshot.init "tank".
Definition mount1 : FuseSnapshot.t :=
  fst (FuseSnapshot.open sample_world mount0 "/a@s2" 0).

(** A pool [tank] whose only child dataset is [tank/b]. *)
Definition tank_b_world : World :=
  {| run := fun _ => failed "no such dataset";
     popen := fun _ => Return [];
     list_datasets := fun _ =>
       Return [{| full_path := "tank/b"; parent := Some "tank" |}] |}.

(** The listing of the sample pool, line by line and as records. *)
Definition tank_lines : list string :=
  ["tank/a@s1" +:+ TAB +:+ "100"; "tank/a@s2" +:+ TAB +:+ "200"].

Definition tank_records : list (string * string) :=
  [("tank/a@s1", "100"); ("tank/a@s2", "200")].

(** A short life of the sample mount: [tank/a@s2] is opened, released, and
    opened again. *)
Definition open_release_open : list (World * call) :=
  [(sample_world, Open "/a@s2" 0);
   (sample_world, Release "/a@s2" 1);
   (sample_world, Open "/a@s2" 0)].

(** The sample mount with [tank/a@s2] opened twice. *)
Definition mount2 : FuseSnapshot.t :=
  fst (FuseSnapshot.open sample_world mount1 "/a@s2" 0).

(* ===================================================================== *)
(** ** Readings used by the properties of whole runs                      *)
(* ===================================================================== *)





(** [sep.join(fields)] for a separator of one character. *)
Fixpoint py_join (sep : ascii) (fields : list string) : string :=
  match fields with
  | [] => EmptyString
  | [f] => f
  | f :: fs => f +:+ String sep (py_join sep fs)
  end.

(** The mount after a sequence of calls. *)
Fixpoint run_calls (self : FuseSnapshot.t) (calls : list (World * call))
  : FuseSnapshot.t :=
  match calls with
  | [] => self
  | (w, c) :: calls' => run_calls (fst (step w self c)) calls'
  end.

Definition is_open (c : call) : bool :=
  match c with
  | Open _ _ => true
  | _ => false
  end.

Definition count_opens (calls : list (World * call)) : Z :=
  Z.of_nat (List.length (List.filter (fun wc => is_open (snd wc)) calls)).

(* ===================================================================== *)
(** * Properties                                                          *)
(* ===================================================================== *)

(** ** The scenarios of the specification, run on the embedding *)

Example closest_of_s2 :
  find_closest_snapshot (tank_world tank_snapshots) "tank/a@s2"
  = Return (VStr "tank/a@s1").
Proof. vm_compute. reflexivity. Qed.

Example closest_of_s1 :
  find_closest_snapshot (tank_world tank_snapshots) "tank/a@s1" = Return VNone.
Proof. vm_compute. reflexivity. Qed.

Example split_keeps_empty_fields :
  py_split "a"%char "banana" = ["b"; "n"; "n"; ""].
Proof. reflexivity. Qed.

Example lstrip_is_not_prefix_removal :
  py_lstrip "tank/" "tank/kant/b" = "b"
  /\ strip_prefix "tank/" "tank/kant/b" = Some "kant/b".
Proof. split; reflexivity. Qed.

(** ** [SendBuffer.read] *)

Section Session.

Import SendBuffer.

Implicit Types (self : SendBuffer.t) (pipe data : list Byte.byte).

Lemma pipe_read_nonneg n pipe :
  0 <= n ->
  n <= PY_SSIZE_T_MAX ->
  pipe_read n pipe = Return (take (Z.to_nat n) pipe, drop (Z.to_nat n) pipe).
Proof.
  intros Hn Hmax. unfold pipe_read. unfold PY_SSIZE_T_MAX in *.
  destruct (_ || _) eqn:E0;
    [apply orb_true_iff in E0 as [E0|E0]; apply Z.ltb_lt in E0; lia|].
  destruct (n <? -1) eqn:E1; [apply Z.ltb_lt in E1; lia|].
  destruct (n =? -1) eqn:E2; [apply Z.eqb_eq in E2; lia|].
  reflexivity.
Qed.


(** What the seek does when it has something to skip. *)
Lemma seek_forward self offset :
  pointer self < offset ->
  offset - pointer self <= PY_SSIZE_T_MAX ->
  seek self offset
  = (with_pipe self offset
       (drop (Z.to_nat (offset - pointer self)) (stdout (send_proc self))),
     Return tt).
Proof.
  intros Hlt Hgap. unfold seek.
  destruct (pointer self <? offset) eqn:E; [|apply Z.ltb_ge in E; lia].
  rewrite pipe_read_nonneg by lia. reflexivity.
Qed.

Lemma seek_here self offset :
  offset <= pointer self -> seek self offset = (self, Return tt).
Proof.
  intros Hle. unfold seek.
  destruct (pointer self <? offset) eqn:E; [apply Z.ltb_lt in E; lia|].
  reflexivity.
Qed.

Lemma seek_pointer_le self offset :
  pointer self <= pointer (fst (seek self offset)).
Proof.
  unfold seek.
  destruct (pointer self <? offset) eqn:E; [|simpl; lia].
  apply Z.ltb_lt in E.
  destruct (pipe_read _ _) as [[d rest]|e]; simpl; lia.
Qed.

Lemma read_pointer_le self length offset :
  pointer self <= pointer (fst (read self length offset)).
Proof.
  unfold read.
  pose proof (seek_pointer_le self offset) as Hseek.
  destruct (seek self offset) as [self1 [[]|e]]; simpl in *; [|lia].
  destruct (pipe_read length _) as [[data rest]|e]; simpl; lia.
Qed.

(** The whole of a [read] at or beyond the pointer, in one equation. *)
Lemma read_eq self length offset :
  pointer self <= offset ->
  offset - pointer self <= PY_SSIZE_T_MAX ->
  0 <= length ->
  length <= PY_SSIZE_T_MAX ->
  let rest := drop (Z.to_nat (offset - pointer self)) (stdout (send_proc self)) in
  let data := take (Z.to_nat length) rest in
  read self length offset
  = (with_pipe self (offset + Z.of_nat (List.length data))
       (drop (Z.to_nat length) rest),
     Return data).
Proof.
  intros Hoff Hgap Hlen Hmax rest data. unfold read.
  destruct (Z.eq_dec (pointer self) offset) as [Heq|Hne].
  - rewrite seek_here by lia.
    rewrite pipe_read_nonneg by lia.
    subst data rest. rewrite <- Heq.
    replace (Z.to_nat (pointer self - pointer self)) with 0%nat by lia.
    rewrite drop_0. reflexivity.
  - rewrite seek_forward by lia. cbn [fst snd with_pipe stdout send_proc].
    rewrite pipe_read_nonneg by lia. reflexivity.
Qed.

End Session.

Section SessionClaims.

Import SendBuffer.

Implicit Types (self : SendBuffer.t) (pipe data : list Byte.byte).





(** C5: on a fresh session over any stream, [read(1024, 0)] followed by
    [read(1024, 1024)] returns two pieces whose concatenation is what one
    [read(2048, 0)] returns on a fresh session over the same stream: the
    first 2048 bytes of the stream (all of it when it is shorter). *)
Theorem two_reads_as_one (from : value) (stream : list Byte.byte) :
  let s0 := fresh from stream in
  let first := read s0 1024 0 in
  let second := read (fst first) 1024 1024 in
  let whole := read s0 2048 0 in
  exists d1 d2 d,
    snd first = Return d1 /\ snd second = Return d2 /\ snd whole = Return d
    /\ List.app d1 d2 = d
    /\ d = take 2048 stream
    /\ List.length d = Nat.min 2048 (List.length stream).
Proof.
  intros s0 first second whole.
  assert (Hfirst : first
                   = (with_pipe s0 (Z.of_nat (List.length (take 1024 stream)))
                        (drop 1024 stream),
                      Return (take 1024 stream))).
  { subst first. rewrite read_eq by (unfold PY_SSIZE_T_MAX; simpl; lia).
    reflexivity. }
  assert (Hwhole : snd whole = Return (take 2048 stream)).
  { subst whole. rewrite read_eq by (unfold PY_SSIZE_T_MAX; simpl; lia).
    reflexivity. }
  set (gap := Z.to_nat (1024 - Z.of_nat (List.length (take 1024 stream)))).
  assert (Hsecond : snd second = Return (take 1024 (drop gap (drop 1024 stream)))).
  { subst second. rewrite Hfirst. cbn [fst].
    rewrite read_eq; [reflexivity| | |lia|unfold PY_SSIZE_T_MAX; lia];
      cbn [with_pipe pointer]; rewrite length_take; unfold PY_SSIZE_T_MAX; lia. }
  exists (take 1024 stream), (take 1024 (drop gap (drop 1024 stream))),
         (take 2048 stream).
  split; [rewrite Hfirst; reflexivity|].
  split; [exact Hsecond|]. split; [exact Hwhole|].
  split; [|split; [reflexivity | apply length_take]].
  subst gap. rewrite length_take.
  destruct (Nat.le_gt_cases 1024 (List.length stream)) as [Hlong|Hshort].
  - replace (Z.to_nat (1024 - Z.of_nat (1024 `min` List.length stream)))
      with 0%nat by lia.
    rewrite drop_0.
    change 2048%nat with (1024 + 1024)%nat.
    rewrite take_take_drop. reflexivity.
  - rewrite (drop_ge stream 1024) by lia.
    rewrite drop_nil, take_nil, app_nil_r.
    rewrite !take_ge by lia. reflexivity.
Qed.

(** C6: along any sequence of [read] calls on a session, whatever the
    lengths and offsets (offsets below the pointer and calls that raise
    included), the read pointer after a call is never below the pointer
    before it: the pointers of the run, the initial one first, are in
    non-decreasing order. *)
Theorem pointer_never_decreases self (calls : list (Z * Z)) :
  Sorted Z.le (pointer self :: pointers_after self calls).
Proof.
  revert self. induction calls as [|[length offset] calls IH]; intros self.
  - repeat constructor.
  - simpl. constructor; [apply IH|].
    constructor. apply read_pointer_le.
Qed.

End SessionClaims.

(** ** The table of open sessions *)

Section Handles.

Import FuseSnapshot.

Implicit Types (self : FuseSnapshot.t) (c : call) (w : World).

Lemma init_table_below zp : table_below (init zp).
Proof. intros fh [sb Hsb]. simpl in Hsb. rewrite lookup_empty in Hsb. discriminate. Qed.

Lemma step_counter_le w self c :
  _max_buffer_id self <= _max_buffer_id (fst (step w self c)).
Proof.
  destruct c as [path flags|path len off fh|path fh]; simpl.
  - unfold open. destruct (SendBuffer.init _ _); simpl; lia.
  - unfold read. destruct (_open_buffers self !! fh); [|simpl; lia].
    destruct (SendBuffer.read _ _ _); simpl; lia.
  - unfold release. destruct (_open_buffers self !! fh); simpl; lia.
Qed.

Lemma step_table_below w self c :
  table_below self -> table_below (fst (step w self c)).
Proof.
  intros Hinv k.
  destruct c as [path flags|path len off fh|path fh]; simpl.
  - unfold open. destruct (SendBuffer.init _ _) as [sb|e]; simpl.
    + rewrite lookup_insert. case_decide; intros Hk; [lia|].
      specialize (Hinv k Hk). lia.
    + intros Hk. specialize (Hinv k Hk). lia.
  - unfold read. destruct (_open_buffers self !! fh) as [sb|] eqn:Hfh;
      [|simpl; apply Hinv].
    destruct (SendBuffer.read _ _ _) as [sb' r]; simpl.
    rewrite lookup_insert. case_decide; intros Hk; [|apply Hinv, Hk].
    subst k. apply Hinv. rewrite Hfh. eauto.
  - unfold release. destruct (_open_buffers self !! fh) as [sb|] eqn:Hfh;
      [|simpl; apply Hinv].
    simpl. rewrite lookup_delete. case_decide; intros Hk; [|apply Hinv, Hk].
    destruct Hk as [? Hk]; discriminate.
Qed.

(** A handle that is returned is the counter plus one, and the counter
    moves to it. *)
Lemma step_handle w self c fh :
  snd (step w self c) = Handle (Return fh) ->
  fh = _max_buffer_id self + 1 /\ _max_buffer_id (fst (step w self c)) = fh.
Proof.
  destruct c as [path flags|path len off k|path k]; simpl.
  - unfold open. destruct (SendBuffer.init _ _) as [sb|e]; simpl;
      intros H; inversion H. split; reflexivity.
  - destruct (read self path len off k); simpl; discriminate.
  - destruct (release self path k); simpl; discriminate.
Qed.

Lemma history_handles_above self (calls : list (World * call)) :
  Forall (fun fh => _max_buffer_id self < fh) (handles (history self calls)).
Proof.
  revert self. induction calls as [|[w c] calls IH]; intros self; simpl.
  - constructor.
  - pose proof (step_counter_le w self c) as Hle.
    pose proof (step_handle w self c) as Hh.
    destruct (step w self c) as [self' r]; simpl in *.
    specialize (IH self').
    assert (Htail : Forall (fun fh => _max_buffer_id self < fh)
                      (handles (history self' calls))).
    { eapply Forall_impl; [exact IH|]. simpl. intros; lia. }
    destruct r as [[fh|e]|r|r]; try exact Htail.
    constructor; [|exact Htail].
    destruct (Hh fh eq_refl). lia.
Qed.

Lemma history_handles_increasing self (calls : list (World * call)) :
  StronglySorted Z.lt (handles (history self calls)).
Proof.
  revert self. induction calls as [|[w c] calls IH]; intros self; simpl.
  - constructor.
  - pose proof (step_handle w self c) as Hh.
    pose proof (history_handles_above (fst (step w self c)) calls) as Habove.
    destruct (step w self c) as [self' r]; simpl in *.
    destruct r as [[fh|e]|r|r]; try apply IH.
    constructor; [apply IH|].
    destruct (Hh fh eq_refl) as [_ Hmax]. rewrite Hmax in Habove.
    exact Habove.
Qed.

Lemma step_open_inserts w self c :
  table_below self ->
  open_inserts {| ev_world := w; ev_call := c; ev_before := self;
                  ev_after := fst (step w self c);
                  ev_result := snd (step w self c) |}.
Proof.
  intros Hinv. unfold open_inserts; simpl.
  destruct c as [path flags|path len off k|path k]; simpl; try exact I.
  unfold open.
  destruct (SendBuffer.init w (_path2zpath self path)) as [sb|e] eqn:Hsb;
    simpl; [|repeat split].
  split; [reflexivity|]. split; [reflexivity|]. split; [|reflexivity].
  destruct (_open_buffers self !! (_max_buffer_id self + 1)) eqn:Hk;
    [|reflexivity].
  assert (_max_buffer_id self + 1 <= _max_buffer_id self)
    by (apply Hinv; rewrite Hk; eauto).
  lia.
Qed.

Lemma step_release_removes w self c :
  release_removes {| ev_world := w; ev_call := c; ev_before := self;
                     ev_after := fst (step w self c);
                     ev_result := snd (step w self c) |}.
Proof.
  unfold release_removes; simpl.
  destruct c as [path flags|path len off k|path k]; simpl; try exact I.
  unfold release. destruct (_open_buffers self !! k); simpl; split; reflexivity.
Qed.

Lemma step_keeps_entries w self c :
  keeps_entries {| ev_world := w; ev_call := c; ev_before := self;
                   ev_after := fst (step w self c);
                   ev_result := snd (step w self c) |}.
Proof.
  unfold keeps_entries; simpl.
  destruct c as [path flags|path len off k|path k]; simpl; try exact I.
  - intros fh Hfh. unfold open.
    destruct (SendBuffer.init _ _) as [sb|e]; simpl; [|exact Hfh].
    rewrite lookup_insert. case_decide; eauto.
  - intros fh Hfh. unfold read.
    destruct (_open_buffers self !! k) as [sb|] eqn:Hk; [|exact Hfh].
    destruct (SendBuffer.read _ _ _) as [sb' r]; simpl.
    rewrite lookup_insert. case_decide; eauto.
Qed.

Lemma history_events self (calls : list (World * call)) :
  table_below self ->
  Forall (fun ev => open_inserts ev /\ keeps_entries ev /\ release_removes ev)
         (history self calls).
Proof.
  revert self. induction calls as [|[w c] calls IH]; intros self Hinv; simpl.
  - constructor.
  - pose proof (step_open_inserts w self c Hinv) as Hopen.
    pose proof (step_keeps_entries w self c) as Hkeep.
    pose proof (step_release_removes w self c) as Hrel.
    pose proof (step_table_below w self c Hinv) as Hinv'.
    destruct (step w self c) as [self' r]; simpl in *.
    constructor; [repeat split; assumption|]. apply IH, Hinv'.
Qed.

(** C7: in the history of any sequence of [open], [read] and [release]
    calls on a mount that starts with [FuseSnapshot(zpool)], the handles
    returned by [open] are strictly increasing, so each is above all those
    handed out before it and none comes back, released or not; every [open]
    whose session is built returns the counter plus one, a key that was
    free, and stores that session under it, changing no other entry, while
    an [open] whose session cannot be built raises and stores nothing; no
    call other than [release] removes a key from the table; and [release]
    removes the entry of the handle it is given. *)
Theorem handles_fresh_and_table_owned (zp : string) (calls : list (World * call)) :
  let h := history (init zp) calls in
  StronglySorted Z.lt (handles h)
  /\ Forall open_inserts h
  /\ Forall keeps_entries h
  /\ Forall release_removes h.
Proof.
  intros h.
  pose proof (history_events (init zp) calls (init_table_below zp)) as Hev.
  split; [apply history_handles_increasing|].
  repeat split; (eapply Forall_impl; [exact Hev|]); simpl; tauto.
Qed.

(** On the sample pool: [tank/a@s2] is opened as 1, released, and opened
    again as 2, not as 1. *)
Lemma handles_fresh_and_table_owned_witness :
  handles (history (init "tank") open_release_open) = [1; 2]
  /\ (let h := history (init "tank") open_release_open in
      StronglySorted Z.lt (handles h)
      /\ Forall open_inserts h
      /\ Forall keeps_entries h
      /\ Forall release_removes h).
Proof.
  split; [vm_compute; reflexivity|].
  exact (handles_fresh_and_table_owned "tank" open_release_open).
Defined.

(** C8: after [release(path, fh)], whether it found the handle or not, the
    table has no entry for [fh], and [read] on [fh] raises [KeyError(fh)],
    the mount unchanged. *)
Theorem read_after_release self (path path' : string) (length offset fh : Z) :
  let self1 := fst (release self path fh) in
  _open_buffers self1 !! fh = None
  /\ read self1 path' length offset fh = (self1, Raise (KeyError fh)).
Proof.
  intros self1.
  assert (Hgone : _open_buffers self1 !! fh = None).
  { subst self1. unfold release.
    destruct (_open_buffers self !! fh) as [sb|] eqn:Hfh; simpl.
    - apply lookup_delete_eq.
    - exact Hfh. }
  split; [exact Hgone|].
  unfold read. rewrite Hgone. reflexivity.
Qed.

End Handles.

(** ** [getattr], [readdir], [statfs] *)

Section Attributes.

Import FuseSnapshot.

Variable int_of_str : string -> option Z.
Variable float : Type.
Variable float_of_str : string -> option float.

Implicit Types (self : FuseSnapshot.t) (w : World).

Lemma mode_of_snapshot : S_ISREG (Z.lor (Z.lor S_IFREG S_IRUSR) S_IXUSR) = true.
Proof. reflexivity. Qed.

Lemma mode_of_container : S_ISDIR (Z.lor (Z.lor S_IFDIR S_IRUSR) S_IXUSR) = true.
Proof. reflexivity. Qed.

(** C4: when the listing of the resolved path answers with the line of the
    node (name, type, creation time) and the creation time reads as the
    float [t], [getattr] reports, for a node of type [snapshot] whose size
    estimate [get_size] is [n], a regular-file mode and the size [2 * n],
    and for a node of any other type a directory mode and the size 0; the
    access, modification and status-change times are all [t]. *)
Theorem getattr_reports w self path line rest name ztype ctime (t : float) :
  zfs_call w (zfs_list_node (_path2zpath self path)) = Return (line :: rest) ->
  py_split "009"%char line = [name; ztype; ctime] ->
  float_of_str ctime = Some t ->
  (ztype = "snapshot" ->
   forall n, get_size int_of_str w (_path2zpath self path) = Return n ->
   exists st,
     getattr int_of_str float float_of_str w self path = Return st
     /\ S_ISREG (st_mode st) = true /\ st_size st = 2 * n
     /\ st_atime st = t /\ st_mtime st = t /\ st_ctime st = t)
  /\
  (ztype <> "snapshot" ->
   exists st,
     getattr int_of_str float float_of_str w self path = Return st
     /\ S_ISDIR (st_mode st) = true /\ st_size st = 0
     /\ st_atime st = t /\ st_mtime st = t /\ st_ctime st = t).
Proof.
  intros Hlist Hline Hfloat. unfold getattr.
  rewrite Hlist. cbn [bind]. rewrite Hline, Hfloat.
  split.
  - intros -> n Hsize. rewrite String.eqb_refl, Hsize. cbn [bind].
    eexists. split; [reflexivity|]. cbn [st_mode st_size st_atime st_mtime st_ctime].
    split; [apply mode_of_snapshot|]. split; [lia|]. auto.
  - intros Hne. apply String.eqb_neq in Hne. rewrite Hne. cbn [bind].
    eexists. split; [reflexivity|]. cbn [st_mode st_size st_atime st_mtime st_ctime].
    split; [apply mode_of_container|]. auto.
Qed.

End Attributes.

(** The snapshot [tank/a@s2] of the sample pool, estimated at 1234 bytes,
    and the dataset [tank/a] itself. *)
Lemma getattr_reports_witness :
  (exists st,
     FuseSnapshot.getattr decimal Z decimal (tank_world tank_snapshots)
       (FuseSnapshot.init "tank") "/a@s2" = Return st
     /\ S_ISREG (st_mode st) = true /\ st_size st = 2 * 1234
     /\ st_atime st = 200 /\ st_mtime st = 200 /\ st_ctime st = 200)
  /\
  (exists st,
     FuseSnapshot.getattr decimal Z decimal (tank_world tank_snapshots)
       (FuseSnapshot.init "tank") "/a/" = Return st
     /\ S_ISDIR (st_mode st) = true /\ st_size st = 0
     /\ st_atime st = 50 /\ st_mtime st = 50 /\ st_ctime st = 50).
Proof.
  split.
  - refine (proj1 (getattr_reports decimal Z decimal (tank_world tank_snapshots)
                     (FuseSnapshot.init "tank") "/a@s2"
                     _ [] "tank/a@s2" "snapshot" "200" 200 _ _ _)
              eq_refl 1234 _); vm_compute; reflexivity.
  - refine (proj2 (getattr_reports decimal Z decimal (tank_world tank_snapshots)
                     (FuseSnapshot.init "tank") "/a/"
                     _ [] "tank/a" "filesystem" "50" 50 _ _ _) _);
      [vm_compute; reflexivity .. | discriminate].
Defined.

Section Listing.

Import FuseSnapshot.

Implicit Types (self : FuseSnapshot.t) (w : World).

(** Whatever the catalogue does, the first two entries are [.] and [..]. *)
Lemma readdir_dot_entries_first w self path fh :
  take 2 (fst (readdir w self path fh)) = ["."; ".."].
Proof. unfold readdir. destruct (list_datasets w _); reflexivity. Qed.

(** The entries that follow come from the children whose parent is the
    resolved path, one each and in the order of the catalogue, each passed
    through [lstrip(zpool + '/')]. *)
Lemma readdir_children w self path fh ds :
  list_datasets w (_path2zpath self path) = Return ds ->
  snd (readdir w self path fh) = None
  /\ drop 2 (fst (readdir w self path fh))
     = map (fun d => py_lstrip (zpool self +:+ "/") (full_path d))
         (List.filter (fun d => bool_decide (parent d = Some (_path2zpath self path))) ds).
Proof.
  intros Hds. unfold readdir. rewrite Hds. split; [reflexivity|].
  cbn [fst]. change (drop 2 (List.app ["."; ".."] ?l)) with l.
  f_equal. apply filter_ext. intros d.
  destruct (parent d) as [p|].
  - destruct (String.eqb p (_path2zpath self path)) eqn:E.
    + apply String.eqb_eq in E. subst p. symmetry. apply bool_decide_eq_true. reflexivity.
    + apply String.eqb_neq in E. symmetry. apply bool_decide_eq_false. congruence.
  - symmetry. apply bool_decide_eq_false. discriminate.
Qed.

(** C9 on the code: on the pool [tank] with the child dataset [tank/a],
    [readdir('/')] yields [.], [..] and then the EMPTY name for [tank/a]:
    [lstrip('tank/')] removes leading characters that occur in [tank/], and
    [a] is one of them.  The full path with the root prefix removed is
    [a]. *)
Theorem readdir_child_name_eaten :
  readdir (tank_world tank_snapshots) (init "tank") "/" 0
  = (["."; ".."; ""], None)
  /\ strip_prefix "tank/" "tank/a" = Some "a".
Proof. split; vm_compute; reflexivity. Qed.

(** [statfs] does not look at its arguments. *)
Lemma statfs_constant self self' (path path' : string) :
  statfs self path = statfs self' path'.
Proof. reflexivity. Qed.

(** C10 on the code: for every mount and path, the record [statfs] returns
    has the ten keys of the final tuple, each with the default 0 of
    [getattr(stv, key, 0)]: the block size is reported as 0 where [stv] holds
    4096, and the block count as 0 where [stv] holds [2**16]. *)
Theorem statfs_all_defaults self (path : string) :
  statfs self path
  = map (fun key => (key, VInt 0))
      ["f_bavail"; "f_bfree"; "f_blocks"; "f_bsize"; "f_favail"; "f_ffree";
       "f_files"; "f_flag"; "f_frsize"; "f_namemax"]
  /\ dict_get (statfs self path) "f_bsize" = Some (VInt 0)
  /\ dict_get (statfs self path) "f_blocks" = Some (VInt 0).
Proof. repeat split; reflexivity. Qed.

End Listing.

(** ** [find_closest_snapshot] *)

Section StringOrder.

Lemma ascii_compare_eq (a b : ascii) : Ascii.compare a b = Eq -> a = b.
Proof. apply Ascii.compare_eq_iff. Qed.

Lemma ascii_compare_lt_trans (a b c : ascii) :
  Ascii.compare a b = Lt -> Ascii.compare b c = Lt -> Ascii.compare a c = Lt.
Proof.
  unfold Ascii.compare. rewrite !N.compare_lt_iff. apply N.lt_trans.
Qed.

Lemma compare_lt_trans (a b c : string) :
  String.compare a b = Lt -> String.compare b c = Lt -> String.compare a c = Lt.
Proof.
  revert b c. induction a as [|x a IH]; intros [|y b] [|z c]; simpl;
    try congruence.
  destruct (Ascii.compare x y) eqn:Hxy; try discriminate;
    destruct (Ascii.compare y z) eqn:Hyz; try discriminate.
  - apply ascii_compare_eq in Hxy, Hyz. subst.
    unfold Ascii.compare at 1. rewrite N.compare_refl. apply IH.
  - apply ascii_compare_eq in Hxy. subst. rewrite Hyz. auto.
  - apply ascii_compare_eq in Hyz. subst. rewrite Hxy. auto.
  - rewrite (ascii_compare_lt_trans x y z Hxy Hyz). auto.
Qed.

Lemma str_lt_trans (a b c : string) :
  str_lt a b = true -> str_lt b c = true -> str_lt a c = true.
Proof.
  unfold str_lt, String.ltb. intros Hab Hbc.
  destruct (String.compare a b) eqn:Eab; try discriminate.
  destruct (String.compare b c) eqn:Ebc; try discriminate.
  rewrite (compare_lt_trans a b c Eab Ebc). reflexivity.
Qed.

Lemma str_lt_asym (a b : string) : str_lt a b = true -> str_lt b a = false.
Proof.
  unfold str_lt, String.ltb. rewrite (String.compare_antisym b a).
  destruct (String.compare a b); simpl; congruence.
Qed.

Lemma str_lt_irrefl (a : string) : str_lt a a = false.
Proof.
  destruct (str_lt a a) eqn:E; [|reflexivity].
  rewrite (str_lt_asym a a E) in E. discriminate.
Qed.

Lemma str_lt_empty (a : string) : str_lt a "" = false.
Proof. destruct a; reflexivity. Qed.

(** The order is total: two strs neither of which is below the other are
    the same str. *)
Lemma str_lt_total (a b : string) :
  str_lt a b = false -> str_lt b a = false -> a = b.
Proof.
  unfold str_lt, String.ltb. rewrite (String.compare_antisym b a).
  destruct (String.compare a b) eqn:E; simpl; try congruence.
  intros _ _. apply String.compare_eq_iff, E.
Qed.

End StringOrder.

Section ClosestSnapshot.

Implicit Types (recs cands : list (string * string)) (st : scan).

Lemma dataset_is_prefix (snapshot : string) :
  startswith snapshot (dataset_of snapshot) = true.
Proof.
  unfold startswith, dataset_of.
  induction snapshot as [|c s IH]; [reflexivity|].
  simpl. destruct (Ascii.eqb c "@"%char); [reflexivity|].
  destruct (py_split "@"%char s) as [|f fs]; simpl in *.
  - destruct (ascii_dec c c); [destruct s; reflexivity|congruence].
  - destruct (ascii_dec c c); [exact IH|congruence].
Qed.

Lemma closest_step_chosen sct seen acc n c :
  chosen sct seen acc ->
  chosen sct (seen ++ [(n, c)]) (closest_step sct acc (n, c)).
Proof.
  intros Hacc. unfold closest_step.
  destruct (str_lt c sct) eqn:Hc.
  - destruct acc as [[b|] [cb|]]; simpl in Hacc; try contradiction.
    + destruct Hacc as (Hin & Hcb & Hmax). simpl.
      destruct (String.eqb cb "" || str_lt cb c) eqn:Hupd; simpl.
      * split; [apply in_or_app; right; left; reflexivity|]. split; [exact Hc|].
        intros n' c' Hin' Hc'. apply in_app_or in Hin' as [Hin'|[Heq|[]]].
        -- specialize (Hmax n' c' Hin' Hc').
           destruct (str_lt c c') eqn:Hcc'; [|reflexivity].
           apply orb_true_iff in Hupd as [Hemp|Hlt].
           ++ apply String.eqb_eq in Hemp. subst cb.
              assert (c' = "") as ->
                  by (symmetry; apply str_lt_total; [apply Hmax | apply str_lt_empty]).
              rewrite str_lt_empty in Hcc'. discriminate.
           ++ rewrite (str_lt_trans cb c c' Hlt Hcc') in Hmax. discriminate.
        -- inversion Heq; subst. apply str_lt_irrefl.
      * apply orb_false_iff in Hupd as [_ Hnlt].
        split; [apply in_or_app; left; exact Hin|]. split; [exact Hcb|].
        intros n' c' Hin' Hc'. apply in_app_or in Hin' as [Hin'|[Heq|[]]].
        -- apply (Hmax n' c' Hin' Hc').
        -- inversion Heq; subst. exact Hnlt.
    + simpl. split; [apply in_or_app; right; left; reflexivity|].
      split; [exact Hc|].
      intros n' c' Hin' Hc'. apply in_app_or in Hin' as [Hin'|[Heq|[]]].
      * rewrite (Hacc n' c' Hin') in Hc'. discriminate.
      * inversion Heq; subst. apply str_lt_irrefl.
  - destruct acc as [[b|] [cb|]]; simpl in *; try contradiction.
    + destruct Hacc as (Hin & Hcb & Hmax).
      split; [apply in_or_app; left; exact Hin|]. split; [exact Hcb|].
      intros n' c' Hin' Hc'. apply in_app_or in Hin' as [Hin'|[Heq|[]]].
      * apply (Hmax n' c' Hin' Hc').
      * inversion Heq; subst. congruence.
    + intros n' c' Hin'. apply in_app_or in Hin' as [Hin'|[Heq|[]]].
      * apply (Hacc n' c' Hin').
      * inversion Heq; subst. exact Hc.
Qed.

Lemma closest_fold_chosen sct cands seen acc :
  chosen sct seen acc ->
  chosen sct (seen ++ cands) (fold_left (closest_step sct) cands acc).
Proof.
  revert seen acc. induction cands as [|[n c] cands IH]; intros seen acc Hacc.
  - rewrite app_nil_r. exact Hacc.
  - simpl. replace (seen ++ (n, c) :: cands)%list with ((seen ++ [(n, c)]) ++ cands)%list
      by (rewrite <- app_assoc; reflexivity).
    apply IH, closest_step_chosen, Hacc.
Qed.

Lemma closest_loop_chosen sct cands : chosen sct cands (closest_loop sct cands).
Proof.
  apply (closest_fold_chosen sct cands [] (None, None)).
  intros n c [].
Qed.

(** The first loop on a listing whose lines all have two fields. *)
Lemma scan_lines_records dataset snapshot lines recs st :
  Forall2 parses lines recs ->
  exists st',
    scan_lines dataset snapshot st lines = Return st'
    /\ snap_names st' = (snap_names st ++ map fst (List.filter (candidate dataset snapshot) recs))%list
    /\ ctimes st' = (ctimes st ++ map snd (List.filter (candidate dataset snapshot) recs))%list
    /\ snap_ctime st' = last_ctime dataset snapshot recs (snap_ctime st).
Proof.
  intros Hparse. revert st.
  induction Hparse as [|line [n c] lines recs Hline _ IH]; intros st.
  - exists st. simpl. rewrite !app_nil_r. auto.
  - unfold parses in Hline. simpl in Hline.
    cbn [scan_lines]. unfold scan_line. rewrite Hline.
    unfold last_ctime, candidate. cbn [fold_left List.filter fst snd].
    destruct (startswith n dataset); cbn [andb bind].
    + destruct (String.eqb n snapshot); cbn [negb bind].
      * destruct (IH {| ctimes := ctimes st; snap_names := snap_names st;
                        snap_ctime := Some c |})
          as (st' & Hrun & Hn & Hc & Ht).
        exists st'. auto.
      * destruct (IH {| ctimes := ctimes st ++ [c];
                        snap_names := snap_names st ++ [n];
                        snap_ctime := snap_ctime st |})
          as (st' & Hrun & Hn & Hc & Ht).
        exists st'. cbn [snap_names ctimes snap_ctime] in *.
        rewrite <- !app_assoc in *. auto.
    + apply IH.
Qed.

Lemma last_ctime_of_listed dataset snapshot recs start :
  startswith snapshot dataset = true ->
  (is_Some start \/ exists c, In (snapshot, c) recs) ->
  exists sct, last_ctime dataset snapshot recs start = Some sct
              /\ (start = Some sct \/ In (snapshot, sct) recs).
Proof.
  intros Hpre. revert start.
  induction recs as [|[n c] recs IH]; intros start Hsome; simpl.
  - destruct Hsome as [[sct ->]|[c []]]. exists sct. auto.
  - unfold last_ctime. cbn [fold_left fst snd].
    destruct (startswith n dataset && String.eqb n snapshot) eqn:Hn.
    + apply andb_true_iff in Hn as [_ Hn]. apply String.eqb_eq in Hn. subst n.
      destruct (IH (Some c)) as (sct & Hlast & Hwhere); [left; eauto|].
      exists sct. split; [exact Hlast|]. right.
      destruct Hwhere as [Heq|Hin]; [inversion Heq; left; reflexivity | right; exact Hin].
    + destruct (IH start) as (sct & Hlast & Hwhere).
      * destruct Hsome as [Hs|[c' [Heq|Hin]]]; [left; exact Hs| |right; eauto].
        inversion Heq; subst. rewrite Hpre, String.eqb_refl in Hn. discriminate.
      * exists sct. split; [exact Hlast|].
        destruct Hwhere; [left|right; right]; assumption.
Qed.

Lemma combine_fst_snd (l : list (string * string)) :
  combine (map fst l) (map snd l) = l.
Proof. induction l as [|[a b] l IH]; simpl; congruence. Qed.

(** The result of [find_closest_snapshot] on a listing that holds the
    target, in terms of the records of the listing. *)
Lemma closest_among_prefixed w snapshot lines recs :
  zfs_call w zfs_list_snapshots = Return lines ->
  Forall2 parses lines recs ->
  (exists c, In (snapshot, c) recs) ->
  exists sct,
    In (snapshot, sct) recs /\
    match find_closest_snapshot w snapshot with
    | Return VNone =>
        forall n c, In (n, c) recs ->
                    candidate (dataset_of snapshot) snapshot (n, c) = true ->
                    str_lt c sct = false
    | Return (VStr b) =>
        exists cb,
          In (b, cb) recs
          /\ startswith b (dataset_of snapshot) = true
          /\ b <> snapshot
          /\ str_lt cb sct = true
          /\ forall n c, In (n, c) recs ->
                         candidate (dataset_of snapshot) snapshot (n, c) = true ->
                         str_lt c sct = true -> str_lt cb c = false
    | _ => False
    end.
Proof.
  intros Hcall Hparse Hlisted.
  unfold find_closest_snapshot. fold (dataset_of snapshot).
  set (dataset := dataset_of snapshot).
  rewrite Hcall. cbn [bind].
  destruct (scan_lines_records dataset snapshot lines recs scan0 Hparse)
    as (st & Hrun & Hnames & Hctimes & Htarget).
  rewrite Hrun. cbn [bind].
  destruct (last_ctime_of_listed dataset snapshot recs None
              (dataset_is_prefix snapshot) (or_intror Hlisted))
    as (sct & Hlast & [Habs|Hin]); [discriminate|].
  simpl in Htarget, Hnames, Hctimes. rewrite Htarget, Hlast.
  exists sct. split; [exact Hin|].
  rewrite Hnames, Hctimes, combine_fst_snd.
  pose proof (closest_loop_chosen sct
                (List.filter (candidate dataset snapshot) recs)) as Hch.
  destruct (closest_loop sct _) as [[b|] [cb|]]; simpl in *; try contradiction.
  - destruct Hch as (Hb & Hcb & Hmax).
    apply filter_In in Hb as [Hb Hcand].
    unfold candidate in Hcand. simpl in Hcand.
    apply andb_true_iff in Hcand as [Hpre Hne].
    apply negb_true_iff, String.eqb_neq in Hne.
    exists cb. repeat split; try assumption.
    intros n c Hn Hc. apply (Hmax n c), filter_In. auto.
  - intros n c Hn Hc. apply (Hch n c), filter_In. auto.
Qed.

(** X12.  What [find_closest_snapshot] does right: on a listing that holds
    the target, it returns [None] or a str, never anything else; a str it
    returns is the name of a listed record other than the target whose name
    starts with the target's dataset, created before the target, and no such
    record was created after it and before the target; [None] means that no
    such record was created before the target.  Creation times are compared
    the way the code compares them, as strs. *)
Theorem find_closest_snapshot_selects w snapshot lines recs :
  zfs_call w zfs_list_snapshots = Return lines ->
  Forall2 parses lines recs ->
  (exists c, In (snapshot, c) recs) ->
  exists sct,
    In (snapshot, sct) recs /\
    match find_closest_snapshot w snapshot with
    | Return VNone =>
        forall n c, In (n, c) recs ->
                    candidate (dataset_of snapshot) snapshot (n, c) = true ->
                    str_lt c sct = false
    | Return (VStr b) =>
        exists cb,
          In (b, cb) recs
          /\ startswith b (dataset_of snapshot) = true
          /\ b <> snapshot
          /\ str_lt cb sct = true
          /\ forall n c, In (n, c) recs ->
                         candidate (dataset_of snapshot) snapshot (n, c) = true ->
                         str_lt c sct = true -> str_lt cb c = false
    | _ => False
    end.
Proof. exact (closest_among_prefixed w snapshot lines recs). Qed.

End ClosestSnapshot.

Section MissingTarget.

Implicit Types (recs : list (string * string)) (w : World).

Lemma last_ctime_absent dataset snapshot recs start :
  (forall c, ~ In (snapshot, c) recs) ->
  last_ctime dataset snapshot recs start = start.
Proof.
  revert start. induction recs as [|[n c] recs IH]; intros start Habs.
  - reflexivity.
  - unfold last_ctime. cbn [fold_left fst snd].
    destruct (String.eqb n snapshot) eqn:Hn.
    + apply String.eqb_eq in Hn. subst n. destruct (Habs c). left. reflexivity.
    + rewrite andb_false_r. apply IH.
      intros c' Hin. apply (Habs c'). right. exact Hin.
Qed.

(** On a listing without the target, the [RuntimeError] is built and
    RETURNED: the call ends normally and its value is the exception
    object. *)
Lemma find_closest_snapshot_absent w snapshot lines recs :
  zfs_call w zfs_list_snapshots = Return lines ->
  Forall2 parses lines recs ->
  (forall c, ~ In (snapshot, c) recs) ->
  find_closest_snapshot w snapshot
  = Return (VExn (RuntimeError (not_found_msg snapshot))).
Proof.
  intros Hcall Hparse Habs. unfold find_closest_snapshot.
  rewrite Hcall. cbn [bind].
  destruct (scan_lines_records (hd EmptyString (py_split "@"%char snapshot))
              snapshot lines recs scan0 Hparse)
    as (st & Hrun & _ & _ & Htarget).
  rewrite Hrun. cbn [bind].
  rewrite Htarget, last_ctime_absent by exact Habs. reflexivity.
Qed.

(** The callers test the value with [if from_snap:]; the object is true, so
    it goes into the argv as the base, and [subprocess] refuses the argv. *)
Lemma get_size_absent (int_of_str : string -> option Z) w snapshot lines recs :
  zfs_call w zfs_list_snapshots = Return lines ->
  Forall2 parses lines recs ->
  (forall c, ~ In (snapshot, c) recs) ->
  get_size int_of_str w snapshot = Raise TypeError.
Proof.
  intros Hcall Hparse Habs. unfold get_size.
  rewrite (find_closest_snapshot_absent w snapshot lines recs Hcall Hparse Habs).
  reflexivity.
Qed.

Lemma init_absent w snapshot lines recs :
  zfs_call w zfs_list_snapshots = Return lines ->
  Forall2 parses lines recs ->
  (forall c, ~ In (snapshot, c) recs) ->
  SendBuffer.init w snapshot = Raise TypeError.
Proof.
  intros Hcall Hparse Habs. unfold SendBuffer.init.
  rewrite (find_closest_snapshot_absent w snapshot lines recs Hcall Hparse Habs).
  reflexivity.
Qed.

End MissingTarget.

(** C1 on the code: with the datasets [tank/a] (snapshots [s1] at 100 and
    [s2] at 200) and [tank/ab] (snapshot [x] at 150) in the pool, the base
    found for [tank/a@s2] is [tank/ab@x], a snapshot of the dataset
    [tank/ab] and not of [tank/a]: the listing is filtered with
    [name.startswith(dataset)], which also lets in the datasets whose name
    extends [tank/a]. *)
Theorem find_closest_snapshot_of_other_dataset :
  find_closest_snapshot (tank_world tank_ab_snapshots) "tank/a@s2"
  = Return (VStr "tank/ab@x")
  /\ dataset_of "tank/a@s2" = "tank/a"
  /\ dataset_of "tank/ab@x" = "tank/ab".
Proof. repeat split; vm_compute; reflexivity. Qed.

(** C2 on the code: [tank/a@s3] is not in the listing of the sample pool;
    [find_closest_snapshot] does not raise, it returns the [RuntimeError]
    object as its value, and [get_size], which takes any true value for a
    base, ends with the [TypeError] of [subprocess] on the argv that holds
    the object. *)
Theorem find_closest_snapshot_returns_the_error :
  find_closest_snapshot (tank_world tank_snapshots) "tank/a@s3"
  = Return (VExn (RuntimeError "snapshot tank/a@s3 not found"))
  /\ get_size decimal (tank_world tank_snapshots) "tank/a@s3" = Raise TypeError.
Proof. split; vm_compute; reflexivity. Qed.

(** ** More on [SendBuffer.read]: the session as a file *)

Section SessionAsFile.

Import SendBuffer.

Implicit Types (self : SendBuffer.t) (stream : list Byte.byte).










End SessionAsFile.

(** ** More on the table of open sessions *)

Section Mount.

Import FuseSnapshot.

Implicit Types (self : FuseSnapshot.t) (c : call) (w : World).

Lemma open_unfold w self path flags :
  open w self path flags
  = match SendBuffer.init w (_path2zpath self path) with
    | Raise e =>
        ({| zpool := zpool self; _open_buffers := _open_buffers self;
            _max_buffer_id := _max_buffer_id self + 1 |}, Raise e)
    | Return sb =>
        ({| zpool := zpool self;
            _open_buffers := <[_max_buffer_id self + 1 := sb]> (_open_buffers self);
            _max_buffer_id := _max_buffer_id self + 1 |},
         Return (_max_buffer_id self + 1))
    end.
Proof. unfold open. destruct (SendBuffer.init _ _); reflexivity. Qed.


(** X4: [read] and [release] on one handle leave the sessions under every
    other handle, and the handle counter, as they were. *)
Theorem other_handles_untouched self (path : string) (length offset fh fh' : Z) :
  fh' <> fh ->
  _open_buffers (fst (read self path length offset fh)) !! fh'
  = _open_buffers self !! fh'
  /\ _open_buffers (fst (release self path fh)) !! fh' = _open_buffers self !! fh'
  /\ _max_buffer_id (fst (read self path length offset fh)) = _max_buffer_id self
  /\ _max_buffer_id (fst (release self path fh)) = _max_buffer_id self.
Proof.
  intros Hne. unfold read, release.
  destruct (_open_buffers self !! fh) as [sb|]; [|auto].
  destruct (SendBuffer.read sb length offset) as [sb' r]. cbn [fst _open_buffers _max_buffer_id].
  rewrite lookup_insert_ne, lookup_delete_ne by congruence. auto.
Qed.


(** X6: on a mount whose table holds only handles the counter has passed,
    [open] followed by [release] of the handle it returned gives back the
    table as it was before the [open]; the counter keeps the step it made,
    so the handle is not handed out again. *)
Theorem open_release_restores_table w self (path path' : string) (flags : Z) self1 fh :
  table_below self ->
  open w self path flags = (self1, Return fh) ->
  snd (release self1 path' fh) = Return tt
  /\ _open_buffers (fst (release self1 path' fh)) = _open_buffers self
  /\ _max_buffer_id (fst (release self1 path' fh)) = _max_buffer_id self + 1.
Proof.
  intros Hinv Hopen. rewrite open_unfold in Hopen.
  destruct (SendBuffer.init w (_path2zpath self path)) as [sb|e];
    inversion Hopen; subst self1 fh; clear Hopen.
  unfold release. cbn [_open_buffers]. rewrite lookup_insert_eq.
  cbn [fst snd _open_buffers _max_buffer_id].
  split; [reflexivity|]. split; [|reflexivity].
  rewrite delete_insert_eq. apply delete_id.
  destruct (_open_buffers self !! (_max_buffer_id self + 1)) eqn:Hk; [|reflexivity].
  assert (_max_buffer_id self + 1 <= _max_buffer_id self)
    by (apply Hinv; rewrite Hk; eauto).
  lia.
Qed.

(** X7: a second [release] of the same handle raises [KeyError] and changes
    nothing, whatever the first one did. *)
Theorem double_release self (path path' : string) (fh : Z) :
  release (fst (release self path fh)) path' fh
  = (fst (release self path fh), Raise (KeyError fh)).
Proof.
  assert (Hgone : _open_buffers (fst (release self path fh)) !! fh = None).
  { unfold release.
    destruct (_open_buffers self !! fh) as [sb|] eqn:Hfh; simpl.
    - apply lookup_delete_eq.
    - exact Hfh. }
  unfold release at 1. rewrite Hgone. reflexivity.
Qed.

(** X8: when the construction of the session raises, [open] raises the same
    exception and stores nothing, but the counter has moved: the number is
    lost, and the next [open] that succeeds returns the one after it. *)
Theorem failed_open_burns_a_handle w self (path : string) (flags : Z) e :
  SendBuffer.init w (_path2zpath self path) = Raise e ->
  snd (open w self path flags) = Raise e
  /\ _open_buffers (fst (open w self path flags)) = _open_buffers self
  /\ _max_buffer_id (fst (open w self path flags)) = _max_buffer_id self + 1
  /\ forall w' (path' : string) (flags' fh : Z),
       snd (open w' (fst (open w self path flags)) path' flags') = Return fh ->
       fh = _max_buffer_id self + 2.
Proof.
  intros Hinit. rewrite (open_unfold w self), Hinit. cbn [fst snd].
  repeat split.
  intros w' path' flags' fh. rewrite open_unfold.
  destruct (SendBuffer.init w' _); cbn [snd _max_buffer_id];
    intros H; inversion H. lia.
Qed.

Lemma run_calls_counter self (calls : list (World * call)) :
  _max_buffer_id (run_calls self calls) = _max_buffer_id self + count_opens calls.
Proof.
  unfold count_opens. revert self.
  induction calls as [|[w c] calls IH]; intros self; simpl; [lia|].
  rewrite IH. destruct c as [path flags|path len off fh|path fh]; simpl.
  - unfold open. destruct (SendBuffer.init _ _); simpl; lia.
  - unfold read. destruct (_open_buffers self !! fh); [|simpl; lia].
    destruct (SendBuffer.read _ _ _); simpl; lia.
  - unfold release. destruct (_open_buffers self !! fh); simpl; lia.
Qed.

Lemma run_calls_table_below self (calls : list (World * call)) :
  table_below self -> table_below (run_calls self calls).
Proof.
  revert self. induction calls as [|[w c] calls IH]; intros self Hinv; simpl.
  - exact Hinv.
  - apply IH, step_table_below, Hinv.
Qed.

(** X9: after any sequence of [open], [read] and [release] calls on a new
    mount, the counter is the number of [open] calls made, failed ones
    included, and no key of the table is above it. *)
Theorem counter_counts_opens (zp : string) (calls : list (World * call)) :
  _max_buffer_id (run_calls (init zp) calls) = count_opens calls
  /\ table_below (run_calls (init zp) calls).
Proof.
  split.
  - rewrite run_calls_counter. simpl. lia.
  - apply run_calls_table_below, init_table_below.
Qed.

(** X10: through any call on the mount, a session that is in the table
    before and after the call has a read pointer at least as large after it;
    and unless the call is a [read] on its own handle, the session is
    unchanged. *)
Theorem open_session_only_advances w self c (fh : Z) (sb sb' : SendBuffer.t) :
  table_below self ->
  _open_buffers self !! fh = Some sb ->
  _open_buffers (fst (step w self c)) !! fh = Some sb' ->
  SendBuffer.pointer sb <= SendBuffer.pointer sb'
  /\ ((forall path length offset, c <> Read path length offset fh) -> sb' = sb).
Proof.
  intros Hinv Hsb Hsb'.
  destruct c as [path flags|path len off k|path k]; simpl in Hsb'.
  - rewrite open_unfold in Hsb'.
    assert (Hne : _max_buffer_id self + 1 <> fh).
    { intros <-. assert (_max_buffer_id self + 1 <= _max_buffer_id self)
        by (apply Hinv; rewrite Hsb; eauto). lia. }
    destruct (SendBuffer.init _ _); cbn [fst _open_buffers] in Hsb'.
    + rewrite lookup_insert_ne in Hsb' by exact Hne.
      rewrite Hsb in Hsb'. inversion Hsb'. split; [lia|reflexivity].
    + rewrite Hsb in Hsb'. inversion Hsb'. split; [lia|reflexivity].
  - unfold read in Hsb'.
    destruct (_open_buffers self !! k) as [sbk|] eqn:Hk.
    + pose proof (read_pointer_le sbk len off) as Hle.
      destruct (SendBuffer.read sbk len off) as [sbk' r].
      cbn [fst _open_buffers] in Hsb', Hle.
      destruct (Z.eq_dec k fh) as [->|Hne].
      * rewrite lookup_insert_eq in Hsb'. inversion Hsb'; subst sbk'.
        rewrite Hsb in Hk. inversion Hk; subst sbk.
        split; [exact Hle|]. intros Hnot. destruct (Hnot path len off). reflexivity.
      * rewrite lookup_insert_ne in Hsb' by exact Hne.
        rewrite Hsb in Hsb'. inversion Hsb'. split; [lia|reflexivity].
    + cbn [fst] in Hsb'. rewrite Hsb in Hsb'. inversion Hsb'.
      split; [lia|reflexivity].
  - unfold release in Hsb'.
    destruct (_open_buffers self !! k) as [sbk|] eqn:Hk; cbn [fst _open_buffers] in Hsb'.
    + destruct (Z.eq_dec k fh) as [->|Hne].
      * rewrite lookup_delete_eq in Hsb'. discriminate.
      * rewrite lookup_delete_ne in Hsb' by exact Hne.
        rewrite Hsb in Hsb'. inversion Hsb'. split; [lia|reflexivity].
    + rewrite Hsb in Hsb'. inversion Hsb'. split; [lia|reflexivity].
Qed.

End Mount.

(** The sample pool, with [tank/a@s2] opened once on a new mount. *)
Section MountWitnesses.

Import FuseSnapshot.

Lemma mount1_table_below : table_below mount1.
Proof.
  exact (step_table_below sample_world mount0 (Open "/a@s2" 0) (init_table_below "tank")).
Qed.

(** Two sessions open, 1 and 2: reading and releasing 1 leaves 2 alone. *)
Lemma other_handles_untouched_witness :
  _open_buffers (fst (read mount2 "/a@s2" 2 0 1)) !! 2 = _open_buffers mount2 !! 2
  /\ _open_buffers (fst (release mount2 "/a@s2" 1)) !! 2 = _open_buffers mount2 !! 2
  /\ _max_buffer_id (fst (read mount2 "/a@s2" 2 0 1)) = _max_buffer_id mount2
  /\ _max_buffer_id (fst (release mount2 "/a@s2" 1)) = _max_buffer_id mount2.
Proof.
  apply (other_handles_untouched mount2 "/a@s2" 2 0 1 2). lia.
Defined.


Lemma open_release_restores_table_witness :
  snd (release mount1 "/a@s2" 1) = Return tt
  /\ _open_buffers (fst (release mount1 "/a@s2" 1)) = _open_buffers mount0
  /\ _max_buffer_id (fst (release mount1 "/a@s2" 1)) = _max_buffer_id mount0 + 1.
Proof.
  apply (open_release_restores_table sample_world mount0 "/a@s2" "/a@s2" 0 mount1 1);
    [apply init_table_below | vm_compute; reflexivity].
Defined.

(** [tank/a@s3] is not a snapshot of the pool: its session cannot be
    built. *)
Lemma failed_open_burns_a_handle_witness :
  snd (open sample_world mount0 "/a@s3" 0) = Raise TypeError
  /\ _open_buffers (fst (open sample_world mount0 "/a@s3" 0)) = _open_buffers mount0
  /\ _max_buffer_id (fst (open sample_world mount0 "/a@s3" 0)) = _max_buffer_id mount0 + 1
  /\ forall w' (path' : string) (flags' fh : Z),
       snd (open w' (fst (open sample_world mount0 "/a@s3" 0)) path' flags') = Return fh ->
       fh = _max_buffer_id mount0 + 2.
Proof.
  apply (failed_open_burns_a_handle sample_world mount0 "/a@s3" 0 TypeError).
  vm_compute. reflexivity.
Defined.

Lemma open_session_only_advances_witness :
  SendBuffer.pointer (SendBuffer.fresh (VStr "tank/a@s1") [x01; x02; x03]%byte)
  <= SendBuffer.pointer
       (fst (SendBuffer.read
               (SendBuffer.fresh (VStr "tank/a@s1") [x01; x02; x03]%byte) 2 0))
  /\ ((forall path length offset, Read "/a@s2" 2 0 1 <> Read path length offset 1) ->
      fst (SendBuffer.read
             (SendBuffer.fresh (VStr "tank/a@s1") [x01; x02; x03]%byte) 2 0)
      = SendBuffer.fresh (VStr "tank/a@s1") [x01; x02; x03]%byte).
Proof.
  apply (open_session_only_advances sample_world mount1 (Read "/a@s2" 2 0 1) 1);
    [apply mount1_table_below | vm_compute; reflexivity | vm_compute; reflexivity].
Defined.

End MountWitnesses.

(** ** [zfs_call]: what reaches the callers *)

Section Lines.

Implicit Types (s : string) (sep : ascii).

Lemma py_split_nonempty sep s : py_split sep s <> [].
Proof.
  destruct s as [|c s]; simpl; [discriminate|].
  destruct (Ascii.eqb c sep); [discriminate|].
  destruct (py_split sep s); discriminate.
Qed.

Lemma py_join_cons sep f g (fs : list string) :
  py_join sep (f :: g :: fs) = f +:+ String sep (py_join sep (g :: fs)).
Proof. reflexivity. Qed.

Lemma py_join_split sep s : py_join sep (py_split sep s) = s.
Proof.
  induction s as [|c s IH]; [reflexivity|].
  simpl. pose proof (py_split_nonempty sep s) as Hne.
  destruct (Ascii.eqb c sep) eqn:Hc.
  - apply Ascii.eqb_eq in Hc. subst c.
    destruct (py_split sep s) as [|g fs]; [congruence|].
    rewrite py_join_cons, IH. reflexivity.
  - destruct (py_split sep s) as [|g fs]; [congruence|].
    destruct fs as [|h fs].
    + change (String c g = String c s). f_equal. exact IH.
    + rewrite py_join_cons. rewrite py_join_cons in IH.
      change (String c (g +:+ String sep (py_join sep (h :: fs))) = String c s).
      f_equal. exact IH.
Qed.

Lemma py_split_fields_free sep s :
  Forall (fun f => char_in sep f = false) (py_split sep s).
Proof.
  induction s as [|c s IH]; simpl; [repeat constructor|].
  destruct (Ascii.eqb c sep) eqn:Hc.
  - constructor; [reflexivity | exact IH].
  - destruct (py_split sep s) as [|g fs]; [repeat constructor|].
    + simpl. rewrite Ascii.eqb_sym, Hc. reflexivity.
    + inversion IH; subst. constructor; [|assumption].
      simpl. rewrite Ascii.eqb_sym, Hc. assumption.
Qed.

Lemma stderr_test (err : string) :
  (0 <? Z.of_nat (String.length err)) = negb (String.eqb err "").
Proof. destruct err; reflexivity. Qed.

Lemma zfs_call_ok w args argv proc :
  argv_strs args = Some argv ->
  run w argv = Return proc ->
  returncode proc = 0 ->
  proc_stderr proc = "" ->
  zfs_call w args = Return (py_split "010"%char (py_strip (proc_stdout proc))).
Proof.
  intros Hargv Hrun Hrc Herr. unfold zfs_call, subprocess_run.
  rewrite Hargv, Hrun. cbn [bind]. rewrite Hrc, Herr. reflexivity.
Qed.

Lemma zfs_call_fails w args argv proc :
  argv_strs args = Some argv ->
  run w argv = Return proc ->
  returncode proc <> 0 \/ proc_stderr proc <> "" ->
  zfs_call w args = Raise (RuntimeError (proc_stderr proc)).
Proof.
  intros Hargv Hrun Hbad. unfold zfs_call, subprocess_run.
  rewrite Hargv, Hrun. cbn [bind]. rewrite stderr_test.
  destruct Hbad as [Hrc|Herr].
  - apply Z.eqb_neq in Hrc. rewrite Hrc. reflexivity.
  - apply String.eqb_neq in Herr. rewrite Herr, orb_true_r. reflexivity.
Qed.

(** X11: [zfs_call] trusts a run only when the return code is 0 and nothing
    at all was written on the error stream; it then yields at least one
    line, no line holds a newline, and the lines joined by newlines are the
    output without its leading and trailing white space.  Any other run
    raises [RuntimeError] with the error text, whatever was on the
    output. *)
Theorem zfs_call_lines w args argv proc :
  argv_strs args = Some argv ->
  run w argv = Return proc ->
  (returncode proc = 0 /\ proc_stderr proc = "" ->
   exists lines,
     zfs_call w args = Return lines
     /\ lines <> []
     /\ py_join "010"%char lines = py_strip (proc_stdout proc)
     /\ Forall (fun line => char_in "010"%char line = false) lines)
  /\ (returncode proc <> 0 \/ proc_stderr proc <> "" ->
      zfs_call w args = Raise (RuntimeError (proc_stderr proc))).
Proof.
  intros Hargv Hrun. split.
  - intros [Hrc Herr]. eexists. split; [eapply zfs_call_ok; eassumption|].
    split; [apply py_split_nonempty|].
    split; [apply py_join_split | apply py_split_fields_free].
  - apply (zfs_call_fails w args argv proc); assumption.
Qed.

Lemma zfs_call_lines_witness :
  (exists lines,
     zfs_call sample_world zfs_list_snapshots = Return lines
     /\ lines <> []
     /\ py_join "010"%char lines = py_strip tank_snapshots
     /\ Forall (fun line => char_in "010"%char line = false) lines)
  /\ zfs_call sample_world (FuseSnapshot.zfs_list_node "tank/nope")
     = Raise (RuntimeError "cannot open: dataset does not exist").
Proof.
  split.
  - refine (proj1 (zfs_call_lines sample_world zfs_list_snapshots _
                     {| returncode := 0; proc_stdout := tank_snapshots;
                        proc_stderr := "" |} eq_refl _) _);
      [vm_compute; reflexivity | split; reflexivity].
  - refine (proj2 (zfs_call_lines sample_world (FuseSnapshot.zfs_list_node "tank/nope") _
                     {| returncode := 1; proc_stdout := "";
                        proc_stderr := "cannot open: dataset does not exist" |}
                     eq_refl _) _);
      [vm_compute; reflexivity | left; discriminate].
Defined.

End Lines.

(** ** More on [find_closest_snapshot] *)

Section ClosestSnapshotMore.

Implicit Types (recs : list (string * string)) (w : World).

Lemma tank_lines_parse : Forall2 parses tank_lines tank_records.
Proof. repeat constructor. Qed.

Lemma tank_lines_listed : zfs_call sample_world zfs_list_snapshots = Return tank_lines.
Proof. vm_compute. reflexivity. Qed.

Lemma find_closest_snapshot_selects_witness :
  exists sct,
    In ("tank/a@s2", sct) tank_records /\
    match find_closest_snapshot sample_world "tank/a@s2" with
    | Return VNone =>
        forall n c, In (n, c) tank_records ->
                    candidate (dataset_of "tank/a@s2") "tank/a@s2" (n, c) = true ->
                    str_lt c sct = false
    | Return (VStr b) =>
        exists cb,
          In (b, cb) tank_records
          /\ startswith b (dataset_of "tank/a@s2") = true
          /\ b <> "tank/a@s2"
          /\ str_lt cb sct = true
          /\ forall n c, In (n, c) tank_records ->
                         candidate (dataset_of "tank/a@s2") "tank/a@s2" (n, c) = true ->
                         str_lt c sct = true -> str_lt cb c = false
    | _ => False
    end.
Proof.
  apply (find_closest_snapshot_selects sample_world "tank/a@s2" tank_lines tank_records);
    [exact tank_lines_listed | exact tank_lines_parse
     | exists "200"; right; left; reflexivity].
Defined.

(** X13: when no listed snapshot belongs to another dataset whose name
    begins with the target's dataset name, the base found for a listed
    target is [None] or a snapshot of the target's own dataset, created
    before the target (creation times compared as strs), and no other
    snapshot of that dataset was created after the base and before the
    target. *)
Theorem find_closest_snapshot_same_dataset w snapshot lines recs :
  zfs_call w zfs_list_snapshots = Return lines ->
  Forall2 parses lines recs ->
  (exists c, In (snapshot, c) recs) ->
  (forall n c, In (n, c) recs ->
               startswith n (dataset_of snapshot) = true ->
               dataset_of n = dataset_of snapshot) ->
  exists sct,
    In (snapshot, sct) recs /\
    (find_closest_snapshot w snapshot = Return VNone
     \/ exists b cb,
          find_closest_snapshot w snapshot = Return (VStr b)
          /\ In (b, cb) recs
          /\ dataset_of b = dataset_of snapshot
          /\ b <> snapshot
          /\ str_lt cb sct = true
          /\ forall n c, In (n, c) recs ->
                         dataset_of n = dataset_of snapshot ->
                         n <> snapshot ->
                         str_lt c sct = true -> str_lt cb c = false).
Proof.
  intros Hcall Hparse Hlisted Hown.
  destruct (closest_among_prefixed w snapshot lines recs Hcall Hparse Hlisted)
    as (sct & Hin & Hres).
  exists sct. split; [exact Hin|].
  destruct (find_closest_snapshot w snapshot) as [[| |b| |]|e];
    try contradiction.
  - left. reflexivity.
  - right. destruct Hres as (cb & Hb & Hpre & Hne & Hcb & Hmax).
    exists b, cb. split; [reflexivity|]. split; [exact Hb|].
    split; [apply (Hown b cb Hb Hpre)|]. split; [exact Hne|]. split; [exact Hcb|].
    intros n c Hn Hds Hnne Hc. apply (Hmax n c Hn); [|exact Hc].
    unfold candidate. cbn [fst]. rewrite <- Hds, dataset_is_prefix.
    apply String.eqb_neq in Hnne. rewrite Hnne. reflexivity.
Qed.

Lemma find_closest_snapshot_same_dataset_witness :
  exists sct,
    In ("tank/a@s2", sct) tank_records /\
    (find_closest_snapshot sample_world "tank/a@s2" = Return VNone
     \/ exists b cb,
          find_closest_snapshot sample_world "tank/a@s2" = Return (VStr b)
          /\ In (b, cb) tank_records
          /\ dataset_of b = dataset_of "tank/a@s2"
          /\ b <> "tank/a@s2"
          /\ str_lt cb sct = true
          /\ forall n c, In (n, c) tank_records ->
                         dataset_of n = dataset_of "tank/a@s2" ->
                         n <> "tank/a@s2" ->
                         str_lt c sct = true -> str_lt cb c = false).
Proof.
  apply (find_closest_snapshot_same_dataset sample_world "tank/a@s2"
           tank_lines tank_records);
    [exact tank_lines_listed | exact tank_lines_parse
     | exists "200"; right; left; reflexivity |].
  intros n c [H|[H|[]]] _; inversion H; reflexivity.
Defined.

(** X14: on a listing that does not hold the target,
    [find_closest_snapshot] raises nothing: it returns the [RuntimeError]
    object it has built.  Both callers take that object for a base:
    [get_size] and [SendBuffer(zpath)] then raise the [TypeError] of an argv
    that holds something other than strs. *)
Theorem unlisted_target_is_taken_for_a_base
  (int_of_str : string -> option Z) w snapshot lines recs :
  zfs_call w zfs_list_snapshots = Return lines ->
  Forall2 parses lines recs ->
  (forall c, ~ In (snapshot, c) recs) ->
  find_closest_snapshot w snapshot
  = Return (VExn (RuntimeError (not_found_msg snapshot)))
  /\ get_size int_of_str w snapshot = Raise TypeError
  /\ SendBuffer.init w snapshot = Raise TypeError.
Proof.
  intros Hcall Hparse Habs.
  split; [apply (find_closest_snapshot_absent w snapshot lines recs); assumption|].
  split; [apply (get_size_absent int_of_str w snapshot lines recs); assumption|].
  apply (init_absent w snapshot lines recs); assumption.
Qed.

Lemma unlisted_target_is_taken_for_a_base_witness :
  find_closest_snapshot sample_world "tank/a@s3"
  = Return (VExn (RuntimeError (not_found_msg "tank/a@s3")))
  /\ get_size decimal sample_world "tank/a@s3" = Raise TypeError
  /\ SendBuffer.init sample_world "tank/a@s3" = Raise TypeError.
Proof.
  apply (unlisted_target_is_taken_for_a_base decimal sample_world "tank/a@s3"
           tank_lines tank_records);
    [exact tank_lines_listed | exact tank_lines_parse |].
  intros c [H|[H|[]]]; inversion H.
Defined.

(** X15: when the pool has no snapshot at all, so that the listing succeeds
    with nothing but white space on its output, [find_closest_snapshot]
    raises [ValueError]: [zfs_call] yields the empty line, and the unpacking
    of its single field into [name, ctime] fails. *)
Theorem empty_listing_raises w snapshot proc :
  run w ["zfs"; "list"; "-H"; "-p"; "-o"; "name,creation"; "-t"; "snapshot"]
  = Return proc ->
  returncode proc = 0 ->
  proc_stderr proc = "" ->
  py_strip (proc_stdout proc) = "" ->
  find_closest_snapshot w snapshot = Raise ValueError.
Proof.
  intros Hrun Hrc Herr Hout. unfold find_closest_snapshot.
  rewrite (zfs_call_ok w zfs_list_snapshots _ proc eq_refl Hrun Hrc Herr), Hout.
  reflexivity.
Qed.

Lemma empty_listing_raises_witness :
  find_closest_snapshot (tank_world NL) "tank/a@s1" = Raise ValueError.
Proof.
  apply (empty_listing_raises (tank_world NL) "tank/a@s1"
           {| returncode := 0; proc_stdout := NL; proc_stderr := "" |});
    reflexivity.
Defined.

End ClosestSnapshotMore.

(** ** Paths, attributes and directory entries *)

Section Paths.

Import FuseSnapshot.

Implicit Types (self : FuseSnapshot.t) (w : World) (p : ascii -> bool).

Lemma rstrip_by_snoc p (s : string) (c : ascii) :
  p c = true -> rstrip_by p (s +:+ String c EmptyString) = rstrip_by p s.
Proof.
  intros Hc. induction s as [|a s IH]; simpl.
  - rewrite Hc. reflexivity.
  - rewrite IH. reflexivity.
Qed.

Lemma rstrip_by_idem p (s : string) : rstrip_by p (rstrip_by p s) = rstrip_by p s.
Proof.
  induction s as [|a s IH]; [reflexivity|].
  simpl. destruct (rstrip_by p s) as [|b r] eqn:Hr.
  - destruct (p a) eqn:Ha; [reflexivity|]. simpl. rewrite Ha. reflexivity.
  - change (rstrip_by p (String a (String b r))) with
      (match rstrip_by p (String b r) with
       | EmptyString => if p a then EmptyString else String a EmptyString
       | r' => String a r'
       end).
    rewrite IH. reflexivity.
Qed.

Lemma append_cons (a : ascii) (s t : string) :
  String a s +:+ t = String a (s +:+ t).
Proof. reflexivity. Qed.

Lemma append_empty_r (s : string) : s +:+ "" = s.
Proof.
  induction s as [|a s IH]; [reflexivity|].
  rewrite append_cons, IH. reflexivity.
Qed.

(** X16: the resolution of a path drops every trailing [/]: a path and the
    same path with one more [/] at its end resolve to the same dataset
    path, resolving is not changed by stripping the path first, and [/]
    itself resolves to the pool. *)
Theorem path2zpath_ignores_trailing_slashes self (path : string) :
  _path2zpath self (path +:+ "/") = _path2zpath self path
  /\ _path2zpath self (py_rstrip "/" path) = _path2zpath self path
  /\ _path2zpath self "/" = zpool self.
Proof.
  unfold _path2zpath, py_rstrip. repeat split.
  - rewrite rstrip_by_snoc by reflexivity. reflexivity.
  - rewrite rstrip_by_idem. reflexivity.
  - apply append_empty_r.
Qed.

Section Attributes.

Variable int_of_str : string -> option Z.
Variable float : Type.
Variable float_of_str : string -> option float.

(** X17: every record [getattr] returns is that of a read-only node owned
    by root: the mode is exactly a regular file or a directory with the
    owner's read and execute bits and no write bit for anyone, the link
    count is 1, uid and gid are 0, the three times are one value, the size
    is even, and a directory has size 0. *)
Theorem getattr_record_is_read_only w self (path : string) (st : Stat float) :
  getattr int_of_str float float_of_str w self path = Return st ->
  (st_mode st = Z.lor (Z.lor S_IFREG S_IRUSR) S_IXUSR
   \/ st_mode st = Z.lor (Z.lor S_IFDIR S_IRUSR) S_IXUSR)
  /\ Z.land (st_mode st) 0x92 = 0
  /\ st_nlink st = 1 /\ st_uid st = 0 /\ st_gid st = 0
  /\ st_atime st = st_ctime st /\ st_mtime st = st_ctime st
  /\ Z.even (st_size st) = true
  /\ (S_ISDIR (st_mode st) = true -> st_size st = 0).
Proof.
  unfold getattr.
  destruct (zfs_call w _) as [[|line rest]|e]; cbn [bind]; try discriminate.
  destruct (py_split "009"%char line) as [|name [|ztype [|ctime [|]]]];
    try discriminate.
  destruct (float_of_str ctime) as [t|]; [|discriminate].
  destruct (String.eqb ztype "snapshot").
  - destruct (get_size int_of_str w _) as [n|e]; cbn [bind]; [|discriminate].
    intros H. inversion H; subst st; clear H.
    cbn [st_mode st_nlink st_uid st_gid st_atime st_ctime st_mtime st_size].
    repeat split; try reflexivity.
    + left. reflexivity.
    + rewrite Z.even_mul. apply orb_true_r.
    + intros Hdir. vm_compute in Hdir. discriminate.
  - cbn [bind]. intros H. inversion H; subst st; clear H.
    cbn [st_mode st_nlink st_uid st_gid st_atime st_ctime st_mtime st_size].
    repeat split; try reflexivity.
    right. reflexivity.
Qed.

(** X18: when the listing of the resolved path ends with a return code
    other than 0 or writes anything on its error stream, as it does for a
    path that names no dataset, [getattr] raises [RuntimeError] with the
    error text. *)
Theorem getattr_of_missing_node w self (path : string) proc :
  run w ["zfs"; "list"; "-H"; "-p"; "-o"; "name,type,creation";
         _path2zpath self path] = Return proc ->
  returncode proc <> 0 \/ proc_stderr proc <> "" ->
  getattr int_of_str float float_of_str w self path
  = Raise (RuntimeError (proc_stderr proc)).
Proof.
  intros Hrun Hbad. unfold getattr.
  rewrite (zfs_call_fails w (zfs_list_node (_path2zpath self path)) _ proc
             eq_refl Hrun Hbad).
  reflexivity.
Qed.

End Attributes.

(** The snapshot [tank/a@s2] of the sample pool. *)
Lemma getattr_record_is_read_only_witness :
  exists st,
    getattr decimal Z decimal sample_world mount0 "/a@s2" = Return st
    /\ (st_mode st = Z.lor (Z.lor S_IFREG S_IRUSR) S_IXUSR
        \/ st_mode st = Z.lor (Z.lor S_IFDIR S_IRUSR) S_IXUSR)
    /\ Z.land (st_mode st) 0x92 = 0
    /\ st_nlink st = 1 /\ st_uid st = 0 /\ st_gid st = 0
    /\ st_atime st = st_ctime st /\ st_mtime st = st_ctime st
    /\ Z.even (st_size st) = true
    /\ (S_ISDIR (st_mode st) = true -> st_size st = 0).
Proof.
  exists {| st_atime := 200; st_ctime := 200; st_gid := 0;
            st_mode := Z.lor (Z.lor S_IFREG S_IRUSR) S_IXUSR;
            st_mtime := 200; st_nlink := 1; st_size := 2468; st_uid := 0 |}.
  split; [vm_compute; reflexivity|].
  apply (getattr_record_is_read_only decimal Z decimal sample_world mount0 "/a@s2").
  vm_compute. reflexivity.
Defined.

Lemma getattr_of_missing_node_witness :
  getattr decimal Z decimal sample_world mount0 "/nope"
  = Raise (RuntimeError "cannot open: dataset does not exist").
Proof.
  apply (getattr_of_missing_node decimal Z decimal sample_world mount0 "/nope"
           {| returncode := 1; proc_stdout := "";
              proc_stderr := "cannot open: dataset does not exist" |});
    [reflexivity | left; discriminate].
Defined.

End Paths.

Section Entries.

Import FuseSnapshot.

Implicit Types (self : FuseSnapshot.t) (w : World) (p : ascii -> bool).

Lemma char_in_app_l (c : ascii) (a b : string) :
  char_in c a = true -> char_in c (a +:+ b) = true.
Proof.
  induction a as [|d a IH]; [discriminate|].
  rewrite append_cons. cbn [char_in].
  destruct (Ascii.eqb c d); simpl; auto.
Qed.

(** A prefix made of characters of the set is removed whole. *)
Lemma lstrip_by_prefix p (pre s : string) :
  (forall c, char_in c pre = true -> p c = true) ->
  lstrip_by p (pre +:+ s) = lstrip_by p s.
Proof.
  induction pre as [|a pre IH]; intros Hall; [reflexivity|].
  rewrite append_cons. cbn [lstrip_by].
  rewrite (Hall a) by (simpl; rewrite Ascii.eqb_refl; reflexivity).
  apply IH. intros c Hc. apply Hall. simpl. rewrite Hc. apply orb_true_r.
Qed.

(** What is left by [lstrip] is empty or starts outside the set. *)
Lemma lstrip_by_head p (s : string) :
  lstrip_by p s = EmptyString
  \/ exists c rest, lstrip_by p s = String c rest /\ p c = false.
Proof.
  induction s as [|a s IH]; [left; reflexivity|].
  simpl. destruct (p a) eqn:Ha; [exact IH|].
  right. exists a, s. split; [reflexivity | exact Ha].
Qed.

(** X19: a child of the resolved path whose full path is the pool name,
    [/] and a name that starts with a character occurring neither in the
    pool name nor in [/], is listed by [readdir] under exactly that name. *)
Theorem readdir_keeps_plain_names w self (path : string) (fh : Z) ds d
  (c : ascii) (rest : string) :
  list_datasets w (_path2zpath self path) = Return ds ->
  In d ds ->
  parent d = Some (_path2zpath self path) ->
  full_path d = (zpool self +:+ "/") +:+ String c rest ->
  char_in c (zpool self +:+ "/") = false ->
  In (String c rest) (drop 2 (fst (readdir w self path fh))).
Proof.
  intros Hds Hd Hparent Hfull Hc. unfold readdir. rewrite Hds. cbn [fst].
  change (drop 2 (List.app ["."; ".."] ?l)) with l.
  apply in_map_iff. exists d. split.
  - rewrite Hfull. unfold py_lstrip. rewrite lstrip_by_prefix by auto.
    simpl. rewrite Hc. reflexivity.
  - apply filter_In. split; [exact Hd|].
    rewrite Hparent. apply String.eqb_refl.
Qed.

Lemma readdir_keeps_plain_names_witness :
  In "b" (drop 2 (fst (readdir tank_b_world mount0 "/" 0))).
Proof.
  apply (readdir_keeps_plain_names tank_b_world mount0 "/" 0
           [{| full_path := "tank/b"; parent := Some "tank" |}]
           {| full_path := "tank/b"; parent := Some "tank" |} "b"%char "");
    [reflexivity | left; reflexivity | reflexivity | reflexivity | reflexivity].
Defined.

(** X20: no entry that [readdir] yields after [.] and [..] starts with a
    character of the pool name or with [/]: each is empty or starts with a
    character outside that set, whatever the catalogue returned. *)
Theorem readdir_entries_start_outside_pool_name w self (path : string) (fh : Z) :
  Forall (fun entry =>
            entry = EmptyString
            \/ exists c rest, entry = String c rest
                              /\ char_in c (zpool self +:+ "/") = false)
         (drop 2 (fst (readdir w self path fh))).
Proof.
  unfold readdir. destruct (list_datasets w _) as [ds|e]; cbn [fst].
  - change (drop 2 (List.app ["."; ".."] ?l)) with l.
    apply Forall_forall. intros entry Hin.
    apply list_elem_of_In, in_map_iff in Hin as (d & <- & _).
    apply (lstrip_by_head (fun c => char_in c (zpool self +:+ "/"))).
  - constructor.
Qed.

End Entries.

(** ** [get_size]: the shape of the dry run *)

Section DryRun.

Variable int_of_str : string -> option Z.

Implicit Types (w : World).

Lemma py_split_without_sep (sep : ascii) (s : string) :
  char_in sep s = false -> py_split sep s = [s].
Proof.
  induction s as [|c s IH]; [reflexivity|].
  cbn [char_in py_split]. intros Hno.
  apply orb_false_iff in Hno as [Hc Hs].
  rewrite Ascii.eqb_sym, Hc, (IH Hs). reflexivity.
Qed.

(** X21: the size is read from the second line of the dry run and from
    nowhere else.  When the run succeeds with a single line of output,
    [get_size] raises [IndexError]; when it succeeds with two lines or more,
    the result is the second tab-separated field of the second line read as
    an int, whatever the first line and the lines after the second hold. *)
Theorem get_size_reads_second_line w (zpath : string) from argv proc :
  find_closest_snapshot w zpath = Return from ->
  argv_strs (zfs_send_dry from zpath) = Some argv ->
  run w argv = Return proc ->
  returncode proc = 0 ->
  proc_stderr proc = "" ->
  (char_in "010"%char (py_strip (proc_stdout proc)) = false ->
   get_size int_of_str w zpath = Raise IndexError)
  /\ (forall first label field rest n,
        py_split "010"%char (py_strip (proc_stdout proc))
        = first :: (label +:+ String "009"%char field) :: rest ->
        char_in "009"%char label = false ->
        char_in "009"%char field = false ->
        int_of_str field = Some n ->
        get_size int_of_str w zpath = Return n).
Proof.
  intros Hfrom Hargv Hrun Hrc Herr. unfold get_size.
  rewrite Hfrom. cbn [bind].
  rewrite (zfs_call_ok w _ argv proc Hargv Hrun Hrc Herr). cbn [bind].
  split.
  - intros Hone. rewrite (py_split_without_sep _ _ Hone). reflexivity.
  - intros first label field rest n Hlines Hlabel Hfield Hint.
    rewrite Hlines. cbn [nth_error].
    assert (Hsplit : py_split "009"%char (label +:+ String "009"%char field)
                     = [label; field]).
    { clear - Hlabel Hfield. induction label as [|c label IH].
      - change (py_split "009"%char ("" +:+ String "009"%char field))
          with (EmptyString :: py_split "009"%char field).
        rewrite (py_split_without_sep _ _ Hfield). reflexivity.
      - cbn [char_in] in Hlabel. apply orb_false_iff in Hlabel as [Hc Hl].
        rewrite append_cons. cbn [py_split].
        rewrite Ascii.eqb_sym, Hc, (IH Hl). reflexivity. }
    rewrite Hsplit. cbn [nth_error]. rewrite Hint. reflexivity.
Qed.

End DryRun.

Lemma get_size_reads_second_line_witness :
  get_size decimal sample_world "tank/a@s2" = Return 1234.
Proof.
  refine (proj2 (get_size_reads_second_line decimal sample_world "tank/a@s2"
                   (VStr "tank/a@s1")
                   ["zfs"; "send"; "-n"; "-v"; "-P"; "-i"; "tank/a@s1"; "tank/a@s2"]
                   {| returncode := 0;
                      proc_stdout :=
                        "incremental" +:+ TAB +:+ "tank/a@s1" +:+ TAB +:+ "tank/a@s2"
                        +:+ TAB +:+ "1234" +:+ NL +:+ "size" +:+ TAB +:+ "1234" +:+ NL;
                      proc_stderr := "" |} _ _ _ _ _)
            ("incremental" +:+ TAB +:+ "tank/a@s1" +:+ TAB +:+ "tank/a@s2"
             +:+ TAB +:+ "1234")
            "size" "1234" [] 1234 _ _ _ _);
    vm_compute; reflexivity.
Defined.

(** ** Where the sessions of the table come from *)

Section Provenance.

Import FuseSnapshot.

Implicit Types (self : FuseSnapshot.t) (c : call) (w : World).

Lemma step_new_key w self c (fh : Z) :
  is_Some (_open_buffers (fst (step w self c)) !! fh) ->
  is_Some (_open_buffers self !! fh)
  \/ snd (step w self c) = Handle (Return fh).
Proof.
  destruct c as [path flags|path len off k|path k]; simpl.
  - rewrite open_unfold.
    destruct (SendBuffer.init _ _) as [sb|e]; cbn [fst snd _open_buffers]; auto.
    rewrite lookup_insert. case_decide; [subst; auto | auto].
  - unfold read. destruct (_open_buffers self !! k) as [sbk|] eqn:Hk; [|auto].
    destruct (SendBuffer.read _ _ _) as [sb' r]. cbn [fst _open_buffers].
    rewrite lookup_insert. case_decide; [subst; rewrite Hk; eauto | auto].
  - unfold release. destruct (_open_buffers self !! k) as [sbk|] eqn:Hk;
      cbn [fst _open_buffers]; [|auto].
    rewrite lookup_delete. case_decide; [intros [? Habs]; discriminate | auto].
Qed.

Lemma run_calls_keys self (calls : list (World * call)) (fh : Z) :
  is_Some (_open_buffers (run_calls self calls) !! fh) ->
  is_Some (_open_buffers self !! fh) \/ In fh (handles (history self calls)).
Proof.
  revert self. induction calls as [|[w c] calls IH]; intros self; simpl; [auto|].
  intros Hfh. pose proof (step_new_key w self c fh) as Hstep.
  destruct (step w self c) as [self' r] eqn:Hs. cbn [fst snd] in *.
  cbn [handles ev_result].
  destruct (IH self' Hfh) as [Hbefore|Hlater].
  - destruct (Hstep Hbefore) as [Hold|Hnew]; [left; exact Hold|].
    right. rewrite Hnew. left. reflexivity.
  - right. destruct r as [[k|e]|r|r]; try exact Hlater. right. exact Hlater.
Qed.

(** X22: after any sequence of calls on a new mount, every handle that has
    a session in the table is one that an [open] of the sequence returned:
    [read] and [release] never make a session appear. *)
Theorem sessions_come_from_open (zp : string) (calls : list (World * call)) :
  Forall (fun fh => In fh (handles (history (init zp) calls)))
         (map fst (map_to_list (_open_buffers (run_calls (init zp) calls)))).
Proof.
  apply Forall_forall. intros fh Hfh.
  apply list_elem_of_fmap in Hfh as ([k sb] & -> & Hin).
  apply elem_of_map_to_list in Hin. cbn [fst].
  destruct (run_calls_keys (init zp) calls k) as [Hinit|Hopen];
    [rewrite Hin; eauto | | exact Hopen].
  destruct Hinit as [? Hinit]. simpl in Hinit. rewrite lookup_empty in Hinit.
  discriminate.
Qed.

End Provenance.

(** ** [SendBuffer.read]: the calls that raise *)

Section RaisingReads.

Import SendBuffer.

Implicit Types (self : SendBuffer.t).






End RaisingReads.
